(** * EVChargeNet: charging-session lifecycle and slot accounting

    A shallow embedding of the Firestore-backed logic of [script.js]:
    [startCharging], [stopCharging], [joinQueue], [toggleFavorite],
    [handleRegister] and the submit handler of the admin station form.

    Firestore collections are finite maps from document ids to typed
    records; a transaction is a state-and-error computation over the store
    whose writes are kept only when its body does not throw.  Slot counts
    and times are integers ([Z]); prices, energy and cost are exact
    rationals ([Qc]) standing for the JavaScript numbers of the source, so
    the rounding of IEEE doubles is not part of the model. *)

From Stdlib Require Import ZArith QArith Qcanon Lia.
From stdpp Require Import base option strings list gmap sorting.

Open Scope Z_scope.

(** ** Documents *)

(** [slots: { total, available }] of a station document. *)
Record Slots := mkSlots { total : Z; available : Z }.

(** A document of the [stations] collection.  [currentPrice] is read by
    the source but written nowhere in it, hence optional; an absent
    [queue] reads as the empty list everywhere in the source
    ([station.queue?.length || 0], [station.queue && ...]). *)
Record Station := mkStation {
  name : string;
  city : string;
  lat : Qc;
  lng : Qc;
  mobile : string;
  slots : Slots;
  pricePerKwh : Qc;
  status : string;
  images : list string;
  amenities : list string;
  chargerTypes : list string;
  queue : list string;
  currentPrice : option Qc
}.

(** A document of [activeSessions]; [startTime] in milliseconds. *)
Record Session := mkSession {
  sessUserId : string;
  sessStationId : string;
  startTime : Z
}.

(** A document of [bookings]. *)
Record Booking := mkBooking {
  bookUserId : string;
  bookStationId : string;
  createdAt : Z;
  duration : Z;
  cost : Qc;
  kwhConsumed : Qc
}.

(** [profile] of a user document. *)
Record Profile := mkProfile {
  favorites : list string;
  vehicle : string;
  theme : string;
  loyaltyPoints : Z;
  hasCompletedTour : bool
}.

(** A document of [users]. *)
Record User := mkUser {
  email : string;
  role : string;
  profile : Profile
}.

(** The Firestore database [db]: one finite map per collection. *)
Record Store := mkStore {
  stations : gmap string Station;
  activeSessions : gmap string Session;
  bookings : gmap string Booking;
  users : gmap string User
}.

(** ** Exceptions and transactions *)

(** What a [try] block of the source can catch: a string thrown by the
    code itself, the rejection of a write to a missing document
    ([update] needs the document to exist), or a [TypeError] raised by a
    property access on [undefined]. *)
Inductive error :=
| Thrown (msg : string)
| NoDocument (collection id : string)
| TypeError.

Inductive result (A : Type) :=
| Ok (a : A)
| Err (e : error).
Arguments Ok {A} a.
Arguments Err {A} e.

(** The body of [db.runTransaction(async (transaction) => ...)]. *)
Definition Txn (A : Type) : Type := Store -> result (A * Store).

Definition ret {A} (a : A) : Txn A := fun db => Ok (a, db).

Definition bind {A B} (m : Txn A) (k : A -> Txn B) : Txn B :=
  fun db => match m db with
            | Ok (a, db') => k a db'
            | Err e => Err e
            end.

Definition throw {A} (e : error) : Txn A := fun _ => Err e.

Notation "x <- m ;; k" := (bind m (fun x => k))
  (at level 100, m at next level, right associativity).
Notation "m ;;; k" := (bind m (fun _ => k))
  (at level 100, right associativity).

(** [db.runTransaction]: the writes of the body reach the store together
    when the body completes, and none of them does when it throws. *)
Definition runTransaction {A} (body : Txn A) (db : Store) : Store * result A :=
  match body db with
  | Ok (a, db') => (db', Ok a)
  | Err e => (db, Err e)
  end.

(** [collection.doc()] without argument: an identifier not yet used in
    the collection.  Only its freshness is relied upon. *)
Definition newDocId {V} (coll : gmap string V) : string := fresh (dom coll).

(** Field-level updaters for the dotted paths the source writes. *)
Definition set_available (n : Z) (s : Station) : Station :=
  mkStation (name s) (city s) (lat s) (lng s) (mobile s)
            (mkSlots (total (slots s)) n)
            (pricePerKwh s) (status s) (images s) (amenities s)
            (chargerTypes s) (queue s) (currentPrice s).

Definition set_queue (q : list string) (s : Station) : Station :=
  mkStation (name s) (city s) (lat s) (lng s) (mobile s) (slots s)
            (pricePerKwh s) (status s) (images s) (amenities s)
            (chargerTypes s) q (currentPrice s).

Definition set_loyaltyPoints (n : Z) (u : User) : User :=
  mkUser (email u) (role u)
         (mkProfile (favorites (profile u)) (vehicle (profile u))
                    (theme (profile u)) n (hasCompletedTour (profile u))).

Definition with_stations (f : gmap string Station -> gmap string Station)
    (db : Store) : Store :=
  mkStore (f (stations db)) (activeSessions db) (bookings db) (users db).

Definition with_sessions (f : gmap string Session -> gmap string Session)
    (db : Store) : Store :=
  mkStore (stations db) (f (activeSessions db)) (bookings db) (users db).

Definition with_bookings (f : gmap string Booking -> gmap string Booking)
    (db : Store) : Store :=
  mkStore (stations db) (activeSessions db) (f (bookings db)) (users db).

Definition with_users (f : gmap string User -> gmap string User)
    (db : Store) : Store :=
  mkStore (stations db) (activeSessions db) (bookings db) (f (users db)).

(** [transaction.get(stationRef)]: [None] when [!stationDoc.exists]. *)
Definition getStation (id : string) : Txn (option Station) :=
  fun db => Ok (stations db !! id, db).

(** [update] on a station document: rejected when the document is
    missing, otherwise the fields named in the update are rewritten. *)
Definition updateStation (id : string) (f : Station -> Station) : Txn unit :=
  fun db => match stations db !! id with
            | Some s => Ok (tt, with_stations (insert id (f s)) db)
            | None => Err (NoDocument "stations" id)
            end.

Definition updateUser (id : string) (f : User -> User) : Txn unit :=
  fun db => match users db !! id with
            | Some u => Ok (tt, with_users (insert id (f u)) db)
            | None => Err (NoDocument "users" id)
            end.

(** [transaction.set(db.collection('activeSessions').doc(), data)]. *)
Definition addSession (s : Session) : Txn string :=
  fun db => let id := newDocId (activeSessions db) in
            Ok (id, with_sessions (insert id s) db).

Definition addBooking (b : Booking) : Txn string :=
  fun db => let id := newDocId (bookings db) in
            Ok (id, with_bookings (insert id b) db).

(** [transaction.delete(sessionRef)]. *)
Definition deleteSession (id : string) : Txn unit :=
  fun db => Ok (tt, with_sessions (delete id) db).

(** ** Starting a session *)

(** The transaction of [startCharging(stationId)], run for the signed-in
    user [uid]; [serverNow] is the value of
    [FieldValue.serverTimestamp()].  It returns the identifier of the
    session document it creates. *)
Definition startChargingTxn (uid stationId : string) (serverNow : Z) : Txn string :=
  stationDoc <- getStation stationId ;;
  match stationDoc with
  | None => throw (Thrown "Station does not exist!")
  | Some stationData =>
      if available (slots stationData) <=? 0
      then throw (Thrown "No available slots!")
      else
        updateStation stationId
          (set_available (available (slots stationData) - 1)) ;;;
        addSession (mkSession uid stationId serverNow)
  end.

(** [startCharging(stationId)] up to the end of [db.runTransaction]: the
    store it leaves and how the transaction ended.  The statements that
    follow in the [try] block ([fetchUserData], the toast and
    [showUserPage]) read and render and write nothing to the store; when
    one of them throws, [catch] shows the error toast over a transaction
    that has committed. *)
Definition startCharging (uid stationId : string) (serverNow : Z)
    (db : Store) : Store * result string :=
  runTransaction (startChargingTxn uid stationId serverNow) db.

(** ** Stopping a session *)

(** The part of the browser state that [stopCharging] and
    [toggleFavorite] read: [loggedInUser.uid], the local array
    [stations] that the snapshot listener refreshes (each entry is the
    document id with the document data), and [userProfile]. *)
Record Client := mkClient {
  loggedInUser : string;
  localStations : list (string * Station);
  userProfile : Profile
}.

(** [stations.find(s => s.id === id)]. *)
Definition findStation (id : string) (l : list (string * Station)) : option Station :=
  snd <$> List.find (fun p => bool_decide (fst p = id)) l.

(** The integer [z] as a JavaScript number. *)
Definition num (z : Z) : Qc := Q2Qc (inject_Z z).

(** [a || b] on numbers, [a] possibly [undefined]: [a] when it is
    truthy, that is present and not zero, and [b] otherwise. *)
Definition orElse (a : option Qc) (b : Qc) : Qc :=
  match a with
  | Some x => if decide (x = 0%Qc) then b else x
  | None => b
  end.

(** [(stationData.currentPrice || stationData.pricePerKwh)], the price
    that [stopCharging] multiplies the energy with. *)
Definition effectivePrice (s : Station) : Qc :=
  orElse (currentPrice s) (pricePerKwh s).

(** [Math.floor((Date.now() - startTime) / 1000)]. *)
Definition elapsedSeconds (now start : Z) : Z := (now - start) / 1000.

(** [(duration / 3600) * 25], as an exact rational: the binary64 value
    that the script computes is this number rounded, and can differ from
    it in the last place. *)
Definition kwhOf (duration : Z) : Qc := (num duration / num 3600 * num 25)%Qc.

Definition add_loyaltyPoints (n : Z) (p : Profile) : Profile :=
  mkProfile (favorites p) (vehicle p) (theme p) (loyaltyPoints p + n)
            (hasCompletedTour p).

(** The transaction of [stopCharging]; both [FieldValue.increment]s act
    on the value the document holds when the write is applied. *)
Definition stopChargingTxn (uid sessionId : string) (session : Session)
    (serverNow : Z) (dur : Z) (cst kwh : Qc) : Txn string :=
  deleteSession sessionId ;;;
  updateStation (sessStationId session)
    (fun s => set_available (available (slots s) + 1) s) ;;;
  updateUser uid
    (fun u => set_loyaltyPoints (loyaltyPoints (profile u) + 10) u) ;;;
  addBooking (mkBooking (sessUserId session) (sessStationId session)
                        serverNow dur cst kwh).

(** [stopCharging(sessionId)] when nothing else writes the store between
    its [sessionRef.get()] and its transaction: [now] is [Date.now()] and
    [serverNow] the server timestamp.  The result is how the transaction
    ended, or the throw before it; the statements after the transaction
    other than [userProfile.loyaltyPoints += 10] read and render and
    write nothing to the store, and when one of them throws, [catch]
    shows the error toast over a transaction that has committed.
    [stopChargingRead] and
    [stopChargingCommit] below are the two halves, for the runs in which
    something does come between them. *)
Definition stopCharging (c : Client) (now serverNow : Z) (sessionId : string)
    (db : Store) : Store * Client * result string :=
  match activeSessions db !! sessionId with
  | None => (db, c, Err (Thrown "Session not found!"))
  | Some session =>
      let dur := elapsedSeconds now (startTime session) in
      let kwh := kwhOf dur in
      match findStation (sessStationId session) (localStations c) with
      | None => (db, c, Err TypeError)
      | Some stationData =>
          let cst := (kwh * effectivePrice stationData)%Qc in
          match runTransaction
                  (stopChargingTxn (loggedInUser c) sessionId session
                                   serverNow dur cst kwh) db with
          | (db', Ok bid) =>
              (db',
               mkClient (loggedInUser c) (localStations c)
                        (add_loyaltyPoints 10 (userProfile c)),
               Ok bid)
          | (db', Err e) => (db', c, Err e)
          end
      end
  end.

(** What [stopCharging] holds in its local variables when it reaches
    [db.runTransaction]: the session document it has read, and the
    [duration], [kwhConsumed] and [cost] computed from it. *)
Record StopPlan := mkStopPlan {
  planSessionId : string;
  planSession : Session;
  planDuration : Z;
  planKwh : Qc;
  planCost : Qc
}.

(** The first half of [stopCharging]: [await sessionRef.get()], a plain
    read outside any transaction, and the computation that follows. *)
Definition stopChargingRead (c : Client) (now : Z) (sessionId : string)
    (db : Store) : result StopPlan :=
  match activeSessions db !! sessionId with
  | None => Err (Thrown "Session not found!")
  | Some session =>
      let dur := elapsedSeconds now (startTime session) in
      let kwh := kwhOf dur in
      match findStation (sessStationId session) (localStations c) with
      | None => Err TypeError
      | Some stationData =>
          Ok (mkStopPlan sessionId session dur kwh
                         (kwh * effectivePrice stationData)%Qc)
      end
  end.

(** The second half: the transaction, which writes without reading, on
    the store as it is when the transaction commits, and
    [userProfile.loyaltyPoints += 10] after it. *)
Definition stopChargingCommit (c : Client) (serverNow : Z) (p : StopPlan)
    (db : Store) : Store * Client * result string :=
  match runTransaction
          (stopChargingTxn (loggedInUser c) (planSessionId p) (planSession p)
                           serverNow (planDuration p) (planCost p) (planKwh p))
          db with
  | (db', Ok bid) =>
      (db',
       mkClient (loggedInUser c) (localStations c)
                (add_loyaltyPoints 10 (userProfile c)),
       Ok bid)
  | (db', Err e) => (db', c, Err e)
  end.

(** What a call that has finished reading does next: the transaction
    on the store as it then is, or the [catch] block. *)
Definition finishStop (c : Client) (serverNow : Z) (r : result StopPlan)
    (db : Store) : Store * Client * result string :=
  match r with
  | Ok p => stopChargingCommit c serverNow p db
  | Err e => (db, c, Err e)
  end.

(** Two calls [stopCharging(sessionId)] from one page, the second made
    while the first is waiting for its [sessionRef.get()]: both reads
    are answered from [db], then the first call computes at [now1] and
    commits at [serverNow1], then the second computes at [now2] and
    commits at [serverNow2] on the store the first has left.  The result
    is the final store and client and how the two calls ended. *)
Definition overlappingStops (c : Client) (now1 now2 serverNow1 serverNow2 : Z)
    (sessionId : string) (db : Store)
    : Store * Client * (result string * result string) :=
  let read1 := stopChargingRead c now1 sessionId db in
  let read2 := stopChargingRead c now2 sessionId db in
  let first := finishStop c serverNow1 read1 db in
  let second := finishStop first.1.2 serverNow2 read2 first.1.1 in
  (second.1, (first.2, second.2)).

(** ** Queue and favourites *)

(** [FieldValue.arrayUnion(x)]: [x] is added at the end unless the array
    already holds it. *)
Definition arrayUnion (x : string) (l : list string) : list string :=
  if decide (x ∈ l) then l else l ++ [x].

(** [joinQueue(stationId)] for the signed-in user [uid]: one [update]
    of the station document. *)
Definition joinQueue (uid stationId : string) (db : Store) : Store * result unit :=
  runTransaction
    (updateStation stationId (fun s => set_queue (arrayUnion uid (queue s)) s))
    db.

(** [Array.prototype.indexOf]: the first position of [x], or [-1]. *)
Fixpoint indexOfFrom (x : string) (l : list string) (i : Z) : Z :=
  match l with
  | [] => -1
  | y :: l' => if decide (y = x) then i else indexOfFrom x l' (i + 1)
  end.

Definition indexOf (x : string) (l : list string) : Z := indexOfFrom x l 0.

(** [l.splice(start, 1)] for a position [start] of [l]: the array
    without that one element. *)
Definition splice1 (start : Z) (l : list string) : list string :=
  take (Z.to_nat start) l ++ drop (S (Z.to_nat start)) l.

(** The branch of [toggleFavorite] on [userProfile.favorites]. *)
Definition toggleFavoriteList (stationId : string) (favs : list string) : list string :=
  let index := indexOf stationId favs in
  if -1 <? index then splice1 index favs else favs ++ [stationId].

Definition set_favorites (l : list string) (p : Profile) : Profile :=
  mkProfile l (vehicle p) (theme p) (loyaltyPoints p) (hasCompletedTour p).

Definition set_profile (p : Profile) (u : User) : User :=
  mkUser (email u) (role u) p.

(** [updateUserProfile()]: [update({ profile: userProfile })]; a failure
    is logged and goes no further. *)
Definition updateUserProfile (c : Client) (db : Store) : Store :=
  fst (runTransaction (updateUser (loggedInUser c) (set_profile (userProfile c))) db).

(** [toggleFavorite(stationId)]. *)
Definition toggleFavorite (stationId : string) (c : Client) (db : Store) : Store * Client :=
  let c' := mkClient (loggedInUser c) (localStations c)
              (set_favorites (toggleFavoriteList stationId (favorites (userProfile c)))
                             (userProfile c)) in
  (updateUserProfile c' db, c').

(** ** Registration *)

(** What [createUserWithEmailAndPassword] resolves with: [user.uid] and
    [user.email]. *)
Record Credential := mkCredential { uid : string; credEmail : string }.

Inductive registerOutcome :=
| PasswordTooShort
| Registered (id : string)
| RegistrationFailed (e : error).

(** The profile literal written by [handleRegister]. *)
Definition initialProfile : Profile := mkProfile [] "Other" "light" 0 false.

(** The code units of a string of ASCII characters. *)
Definition asciiCodeUnits (s : string) : list N :=
  Ascii.N_of_ascii <$> String.list_ascii_of_string s.

(** [handleRegister]: the form values are [emailIn], [password] and
    [roleIn]; [createUser] stands for the identity provider.  The
    password is the list of its UTF-16 code units, which is what
    [password.length] counts. *)
Definition handleRegister
    (createUser : string -> list N -> result Credential)
    (emailIn : string) (password : list N) (roleIn : string) (db : Store)
    : Store * registerOutcome :=
  if (length password <? 6)%nat then (db, PasswordTooShort)
  else match createUser emailIn password with
       | Err e => (db, RegistrationFailed e)
       | Ok user =>
           (with_users (insert (uid user)
                          (mkUser (credEmail user) roleIn initialProfile)) db,
            Registered (uid user))
       end.

(** ** The admin station form *)

(** The values read from the form: the hidden [station-id] (empty when
    a station is being added), the integers [parseInt] yields for both
    slot counts and the price, the numbers [parseFloat] yields for the
    coordinates, and the lists left of the comma-separated inputs after
    [split(',').map(s => s.trim()).filter(Boolean)]. *)
Record StationForm := mkStationForm {
  formStationId : string;
  formName : string;
  formCity : string;
  formLat : Qc;
  formLng : Qc;
  formMobile : string;
  formTotal : Z;
  formAvailable : Z;
  formPrice : Z;
  formStatus : string;
  formImage : string;
  formAmenities : list string;
  formChargers : list string
}.

(** [update(formData)]: the eleven keys of [formData] replace the
    fields of the same name and the rest of the document stays. *)
Definition updateWithFormData (f : StationForm) (s : Station) : Station :=
  mkStation (formName f) (formCity f) (formLat f) (formLng f) (formMobile f)
            (mkSlots (formTotal f) (formAvailable f))
            (num (formPrice f)) (formStatus f) [formImage f]
            (formAmenities f) (formChargers f)
            (queue s) (currentPrice s).

(** [formData.queue = []; add(formData)]: the new document has the
    eleven keys and an empty queue, and no [currentPrice]. *)
Definition newStationFromFormData (f : StationForm) : Station :=
  mkStation (formName f) (formCity f) (formLat f) (formLng f) (formMobile f)
            (mkSlots (formTotal f) (formAvailable f))
            (num (formPrice f)) (formStatus f) [formImage f]
            (formAmenities f) (formChargers f)
            [] None.

(** [collection('stations').add(data)]. *)
Definition addStation (s : Station) : Txn string :=
  fun db => let id := newDocId (stations db) in
            Ok (id, with_stations (insert id s) db).

Inductive submitOutcome :=
| Rejected
| Updated (id : string)
| Created (id : string)
| SaveFailed (e : error).

(** The submit handler of [#admin-station-form]. *)
Definition submitStationForm (f : StationForm) (db : Store) : Store * submitOutcome :=
  let stationId := formStationId f in
  let isEditing := negb (bool_decide (stationId = "")) in
  if formTotal f <? formAvailable f then (db, Rejected)
  else if isEditing then
    match runTransaction (updateStation stationId (updateWithFormData f)) db with
    | (db', Ok _) => (db', Updated stationId)
    | (db', Err e) => (db', SaveFailed e)
    end
  else
    match runTransaction (addStation (newStationFromFormData f)) db with
    | (db', Ok id) => (db', Created id)
    | (db', Err e) => (db', SaveFailed e)
    end.

(** * Runs, invariants and reference definitions *)

(** ** Runs of operations and the slot invariant *)

Definition slot_inv (s : Station) : Prop :=
  0 <= available (slots s) /\ available (slots s) <= total (slots s).

Definition store_inv (db : Store) : Prop :=
  map_Forall (fun _ s => slot_inv s) (stations db).

#[global] Instance slot_inv_dec s : Decision (slot_inv s).
Proof. unfold slot_inv. apply _. Defined.

#[global] Instance store_inv_dec db : Decision (store_inv db).
Proof. unfold store_inv. apply _. Defined.

(** The operations on station documents, as the delegated listeners
    dispatch them: the three that write [slots.available], and
    [joinQueue]. *)
Inductive action :=
| StartSession (uid stationId : string) (serverNow : Z)
| StopSession (c : Client) (now serverNow : Z) (sessionId : string)
| SubmitStation (f : StationForm)
| JoinQueue (uid stationId : string).

Definition perform (a : action) (db : Store) : Store :=
  match a with
  | StartSession uid stationId serverNow =>
      (startCharging uid stationId serverNow db).1
  | StopSession c now serverNow sessionId =>
      (stopCharging c now serverNow sessionId db).1.1
  | SubmitStation f => (submitStationForm f db).1
  | JoinQueue uid stationId => (joinQueue uid stationId db).1
  end.

Definition performAll (l : list action) (db : Store) : Store :=
  foldl (fun d a => perform a d) db l.

(** What each operation needs for the invariant to survive it:
    nothing for a start; for a stop, a slot of the session's station
    that is in use; for the form, a submitted [available] that is not
    negative; nothing for [joinQueue], which leaves the slots alone. *)
Definition respects (a : action) (db : Store) : Prop :=
  match a with
  | StartSession _ _ _ => True
  | StopSession _ _ _ sessionId =>
      forall session st,
        activeSessions db !! sessionId = Some session ->
        stations db !! sessStationId session = Some st ->
        available (slots st) < total (slots st)
  | SubmitStation f => 0 <= formAvailable f
  | JoinQueue _ _ => True
  end.



(** Every queue of the store is free of duplicates. *)
Definition queues_NoDup (db : Store) : Prop :=
  map_Forall (fun _ s => NoDup (queue s)) (stations db).

(** A sequence of [joinQueue] calls, each by a user for a station. *)
Definition joinAll (calls : list (string * string)) (db : Store) : Store :=
  performAll ((fun call => JoinQueue call.1 call.2) <$> calls) db.

(** ** Definitions used to state the properties *)

(** The effective price in the words of the specification: the peak
    override when it is set and greater than the base price, the base
    price otherwise.  Only used for comparison with [effectivePrice]. *)
Definition specEffectivePrice (s : Station) : Qc :=
  match currentPrice s with
  | Some p => if decide (pricePerKwh s < p)%Qc then p else pricePerKwh s
  | None => pricePerKwh s
  end.

(** [l] without the first occurrence of [x]. *)
Fixpoint removeFirst (x : string) (l : list string) : list string :=
  match l with
  | [] => []
  | y :: l' => if decide (y = x) then l' else y :: removeFirst x l'
  end.

(** [stationRef.get()] followed by reading [slots] off the data. *)
Definition readSlots (id : string) (db : Store) : option Slots :=
  slots <$> stations db !! id.

Definition pointsOf (who : string) (db : Store) : option Z :=
  (fun u => loyaltyPoints (profile u)) <$> users db !! who.

(** ** Racing StartSession calls *)

(** Calls to [startCharging] issued at the same time against one
    station touch the store only inside their transaction, and the store
    applies the transactions on a document one at a time.  A scheduler
    that commits any one of the pending calls next therefore covers every
    way such calls can interleave. *)

(** One entry of the log: who called, how the call ended, and the
    [slots.available] of the station right after the call's transaction. *)
Record Served := mkServed {
  caller : string;
  outcome : result string;
  seen : option Z
}.

Definition availableAt (stationId : string) (db : Store) : option Z :=
  (fun s => available (slots s)) <$> stations db !! stationId.

Definition succeeded (e : Served) : bool :=
  match outcome e with
  | Ok _ => true
  | Err _ => false
  end.

Definition refused (e : Served) : bool :=
  match outcome e with
  | Err (Thrown msg) => bool_decide (msg = "No available slots!")
  | _ => false
  end.

(** The store, the calls not yet committed (each with the signed-in user
    and the server time of its commit) and the log of those committed. *)
Definition Race : Type := Store * list (string * Z) * list Served.

Inductive commit (stationId : string) : Race -> Race -> Prop :=
| commit_any db before u t after log :
    commit stationId
      (db, before ++ (u, t) :: after, log)
      ((startCharging u stationId t db).1,
       before ++ after,
       log ++ [mkServed u (startCharging u stationId t db).2
                 (availableAt stationId (startCharging u stationId t db).1)]).

Definition successes (log : list Served) : nat := length (List.filter succeeded log).
Definition refusals (log : list Served) : nat := length (List.filter refused log).
Definition observed (log : list Served) : list (option Z) :=
  seen <$> List.filter succeeded log.

(** ** Concrete data for the examples *)

Definition emptyStore : Store := mkStore ∅ ∅ ∅ ∅.

Definition demoForm (id : string) (tot av : Z) : StationForm :=
  mkStationForm id "Green Park" "Pune" (num 18) (num 73) "" tot av 12
                "Operational" "https://placehold.co/600x400" ["Cafe"] ["CCS"].

Definition demoStation (tot av : Z) : Station :=
  newStationFromFormData (demoForm "" tot av).

(** An identity provider that accepts every sign-up and gives the new
    user the uid [who]. *)
Definition demoAuth (who : string) : string -> list N -> result Credential :=
  fun e _ => Ok (mkCredential who e).

Definition aliceStore : Store :=
  (handleRegister (demoAuth "alice") "alice@example.org" (asciiCodeUnits "secret1") "user"
                  emptyStore).1.

Definition aliceClient (tot av : Z) : Client :=
  mkClient "alice" [("0", demoStation tot av)] initialProfile.



(** Alice and bob are registered, a one-slot station exists and alice
    is charging at it. *)
Definition sharedStore : Store :=
  performAll
    [ SubmitStation (demoForm "" 1 1); StartSession "alice" "0" 1000 ]
    (handleRegister (demoAuth "bob") "bob@example.org" (asciiCodeUnits "secret2") "user"
                    aliceStore).1.

(** A station whose [currentPrice] (5) is below its [pricePerKwh] (12),
    as alice's client holds it. *)
Definition discountStation : Station :=
  mkStation "Green Park" "Pune" (num 18) (num 73) "" (mkSlots 1 0) (num 12)
            "Operational" [] [] [] [] (Some (num 5)).

Definition discountClient : Client :=
  mkClient "alice" [("0", discountStation)] initialProfile.

Definition discountStore : Store :=
  with_stations (insert "0" discountStation) sharedStore.

Definition discountBooking : Booking :=
  mkBooking "alice" "0" 3601000 3600 (num 125) (num 25).

Definition fanClient (favs : list string) : Client :=
  mkClient "alice" [] (set_favorites favs initialProfile).

(** The station of [sharedStore] with bob and carol queued and a peak
    price of 20 in force. *)
Definition busyStation : Station :=
  mkStation "Green Park" "Pune" (num 18) (num 73) "" (mkSlots 1 0) (num 12)
            "Operational" ["https://placehold.co/600x400"] ["Cafe"] ["CCS"]
            ["bob"; "carol"] (Some (num 20)).

Definition busyStore : Store := with_stations (insert "0" busyStation) sharedStore.

(** Alice and bob race for the last slot of station ["0"]. *)
Definition lastSlotStore : Store :=
  performAll [ SubmitStation (demoForm "" 1 1) ]
    (handleRegister (demoAuth "bob") "bob@example.org" (asciiCodeUnits "secret2") "user"
                    aliceStore).1.

Definition lastSlotCalls : list (string * Z) := [("alice", 1000); ("bob", 1000)].

(** * Further parts of [script.js] *)

(** ** Station status and the action button of a station card *)

(** What [getStationStatus] returns. *)
Record StatusBadge := mkStatusBadge { text : string; color : string }.

(** [getStationStatus(station)]. *)
Definition getStationStatus (s : Station) : StatusBadge :=
  if bool_decide (status s <> "Operational")
  then mkStatusBadge "Under Maintenance" "var(--yellow)"
  else if bool_decide (available (slots s) = 0)
       then mkStatusBadge "Busy" "var(--red)"
       else mkStatusBadge "Available" "var(--green)".

(** The button that [renderStationList] puts on a station's card for the
    signed-in user: the disabled "In Queue (#n)", "Join Queue",
    "Book Now", or the disabled "Unavailable". *)
Inductive actionButton :=
| InQueueButton (position : Z)
| JoinQueueButton
| BookNowButton
| UnavailableButton.

(** The choice of [actionButtonHtml] in [renderStationList]; the position
    shown is [station.queue.indexOf(loggedInUser.uid) + 1]. *)
Definition actionButtonOf (uid : string) (s : Station) : actionButton :=
  let status := getStationStatus s in
  let isInQueue := bool_decide (uid ∈ queue s) in
  if bool_decide (text status = "Busy") then
    if isInQueue then InQueueButton (indexOf uid (queue s) + 1)
    else JoinQueueButton
  else if bool_decide (text status = "Available") then BookNowButton
  else UnavailableButton.

(** [station.currentPrice > station.pricePerKwh], the condition of the
    "PEAK" badge and of the "(Peak)" mark; a comparison with [undefined]
    is false. *)
Definition isPeak (s : Station) : bool :=
  match currentPrice s with
  | Some p => bool_decide (pricePerKwh s < p)%Qc
  | None => false
  end.

(** ** Deleting a station *)

(** The click on [.delete-station-btn]: after [confirm(...)],
    [db.collection('stations').doc(stationId).delete()]. *)
Definition deleteStation (confirmed : bool) (stationId : string) (db : Store) : Store :=
  if confirmed then with_stations (delete stationId) db else db.

(** ** Plain objects used as tables *)


(** ** The charging estimate of the booking dialog *)








(** ** Filtering the station list *)

(** [filterState]; a field is [None] while the stored state lacks it
    (the initial [{}]). *)
Record FilterState := mkFilterState {
  searchTerm : option string;
  chargerType : option string;
  amenity : option string;
  availableOnly : option bool
}.

(** [s.includes(sub)]. *)
Fixpoint includes (s sub : string) : bool :=
  if String.prefix sub s then true
  else match s with
       | EmptyString => false
       | String _ s' => includes s' sub
       end.

(** Truthiness of a string that may be [undefined]. *)
Definition truthyString (v : option string) : bool :=
  match v with
  | Some s => negb (bool_decide (s = ""))
  | None => false
  end.

(** The predicate of [getFilteredStations]; [toLowerCase] stands for
    [String.prototype.toLowerCase]. *)
Definition stationMatches (toLowerCase : string -> string) (fs : FilterState)
    (station : Station) : bool :=
  let nameMatch :=
    includes (toLowerCase (name station))
             (match searchTerm fs with
              | Some t => if bool_decide (toLowerCase t = "") then "" else toLowerCase t
              | None => ""
              end) in
  let chargerMatch :=
    negb (truthyString (chargerType fs))
    || bool_decide (default "" (chargerType fs) ∈ chargerTypes station) in
  let amenityMatch :=
    negb (truthyString (amenity fs))
    || bool_decide (default "" (amenity fs) ∈ amenities station) in
  let availabilityMatch :=
    negb (default false (availableOnly fs))
    || (0 <? available (slots station)) in
  nameMatch && chargerMatch && amenityMatch && availabilityMatch.

(** [getFilteredStations()] over the local array [stations]. *)
Definition getFilteredStations (toLowerCase : string -> string)
    (fs : FilterState) (l : list (string * Station)) : list (string * Station) :=
  List.filter (fun p => stationMatches toLowerCase fs (snd p)) l.

(** The state that [applyFilters] stores, from the four controls. *)
Definition applyFilters (search charger amen : string) (checked : bool) : FilterState :=
  mkFilterState (Some search) (Some charger) (Some amen) (Some checked).

Definition set_availableOnly (b : bool) (fs : FilterState) : FilterState :=
  mkFilterState (searchTerm fs) (chargerType fs) (amenity fs) (Some b).

(** Lower case of the letters [A] to [Z], the part of [toLowerCase] that
    the examples need. *)
Definition lowerAscii (c : Ascii.ascii) : Ascii.ascii :=
  let n := Ascii.nat_of_ascii c in
  if ((65 <=? n) && (n <=? 90))%nat then Ascii.ascii_of_nat (n + 32) else c.

Fixpoint asciiToLowerCase (s : string) : string :=
  match s with
  | EmptyString => EmptyString
  | String c s' => String (lowerAscii c) (asciiToLowerCase s')
  end.

(** ** Analytics *)






(** ** Trip planner *)






(** ** Book-keeping across operations *)

(** The client's [userProfile] is the profile that the signed-in user's
    document holds. *)
Definition profileInSync (c : Client) (db : Store) : Prop :=
  exists u, users db !! loggedInUser c = Some u /\ profile u = userProfile c.

(** The number of active sessions at a station. *)
Definition occupied (stationId : string) (db : Store) : Z :=
  Z.of_nat (size (filter (fun kv => sessStationId (snd kv) = stationId)
                         (activeSessions db))).

(** Every station's free and occupied slots add up to its total. *)
Definition accounted (db : Store) : Prop :=
  forall id st, stations db !! id = Some st ->
    available (slots st) + occupied id db = total (slots st).

(** The operations of the users, as opposed to the admin form. *)
Definition userAction (a : action) : bool :=
  match a with
  | SubmitStation _ => false
  | _ => true
  end.

(** What can happen to the store while users are at work: an operation
    that runs from its first read to its last write with nothing in
    between, or the transaction of a [stopCharging] whose read was
    answered earlier, with other events since. *)
Inductive event :=
  | Uninterrupted (a : action)
  | StopTransaction (c : Client) (serverNow : Z) (p : StopPlan).

Definition happen (e : event) (db : Store) : Store :=
  match e with
  | Uninterrupted a => perform a db
  | StopTransaction c serverNow p => (stopChargingCommit c serverNow p db).1.1
  end.

Definition happenAll (l : list event) (db : Store) : Store :=
  foldl (fun d e => happen e d) db l.

(** The events are those of users, and every [stopCharging] transaction
    commits while the session document it has read is still in the
    store. *)
Fixpoint sessionsPresent (l : list event) (db : Store) : Prop :=
  match l with
  | [] => True
  | e :: l' =>
      match e with
      | Uninterrupted a => userAction a = true
      | StopTransaction _ _ p =>
          activeSessions db !! planSessionId p = Some (planSession p)
      end
      /\ sessionsPresent l' (happen e db)
  end.

(** ** Loading the user's data *)

(** The documents of [collection.where('userId', '==', uid).get()], each
    with its identifier; the order in which a snapshot lists them is the
    store's affair. *)
Definition whereUserId {V} (userIdOf : V -> string) (uid : string)
    (coll : gmap string V) : list (string * V) :=
  map_to_list (filter (fun kv => userIdOf (snd kv) = uid) coll).

(** One step of sorting with the comparator
    [(a, b) => b.createdAt - a.createdAt]: [x] goes before the first
    entry that is not newer than it. *)
Fixpoint insertByCreatedAt (x : string * Booking) (l : list (string * Booking))
    : list (string * Booking) :=
  match l with
  | [] => [x]
  | y :: l' =>
      if createdAt (snd y) <=? createdAt (snd x) then x :: y :: l'
      else y :: insertByCreatedAt x l'
  end.

(** [userBookings.sort((a, b) => b.createdAt - a.createdAt)]: newest
    first, entries of equal time in their former order ([sort] is
    stable). *)
Definition sortByCreatedAtDesc (l : list (string * Booking)) : list (string * Booking) :=
  foldr insertByCreatedAt [] l.

(** [a] is not older than [b]. *)
Definition newerOrEqual (a b : string * Booking) : Prop :=
  createdAt (snd b) <= createdAt (snd a).

(** The local arrays [bookings] and [activeSessions]. *)
Record UserData := mkUserData {
  localBookings : list (string * Booking);
  localSessions : list (string * Session)
}.

(** [fetchUserData()] for the signed-in user [uid]. *)
Definition fetchUserData (uid : string) (db : Store) : UserData :=
  mkUserData (sortByCreatedAtDesc (whereUserId bookUserId uid (bookings db)))
             (whereUserId sessUserId uid (activeSessions db)).

(** The [data-id] of the "Stop Charging" button that
    [renderMySessionsView] draws: the identifier of [activeSessions[0]],
    if there is one. *)
Definition stopButtonId (d : UserData) : option string :=
  fst <$> head (localSessions d).

(** ** Signing in *)

(** [loggedInUser] with the [role] and [username] attached to it, and
    [userProfile]. *)
Record SignedIn := mkSignedIn {
  signedUid : string;
  signedRole : string;
  signedUsername : string;
  signedProfile : Profile
}.

(** The callback of [auth.onAuthStateChanged]: for a user whose document
    exists, the signed-in state; for a user without document,
    [handleLogout()], which ends signed out; signed out for [null]. *)
Definition onAuthStateChanged (user : option Credential) (db : Store) : option SignedIn :=
  match user with
  | Some cred =>
      match users db !! uid cred with
      | Some userData =>
          Some (mkSignedIn (uid cred) (role userData) (email userData)
                           (profile userData))
      | None => None
      end
  | None => None
  end.

(** Which of the three containers [showAppView] leaves visible. *)
Inductive view := AuthScreen | UserApp | AdminApp | NoContainer.

(** [showAppView()]. *)
Definition showAppView (s : option SignedIn) : view :=
  match s with
  | None => AuthScreen
  | Some si =>
      if bool_decide (signedRole si = "user") then UserApp
      else if bool_decide (signedRole si = "admin") then AdminApp
      else NoContainer
  end.

(** ** The meter of a running session *)

(** What the interval of [startSessionTimer(session)] shows at the time
    [now]: the elapsed seconds, the energy and the cost; [None] when the
    session's station is not in the local array (no timer is started). *)
Definition startSessionTimer (l : list (string * Station)) (session : Session)
    (now : Z) : option (Z * Qc * Qc) :=
  match findStation (sessStationId session) l with
  | None => None
  | Some station =>
      let elapsedTime := elapsedSeconds now (startTime session) in
      let kwh := kwhOf elapsedTime in
      Some (elapsedTime, kwh, (kwh * effectivePrice station)%Qc)
  end.

(** ** Reviews *)

(** A document of [reviews]. *)
Record Review := mkReview {
  reviewUserId : string;
  reviewUsername : string;
  reviewStationId : string;
  rating : Z;
  reviewText : string;
  reviewCreatedAt : Z
}.

(** The submit handler of [#review-form] on the collection [reviews]:
    [ratingIn] is what [parseInt] makes of the hidden [rating-value]
    ([None] for [NaN]).  The result tells whether a review was added. *)
Definition submitReview (userId username stationId : string)
    (ratingIn : option Z) (reviewTextIn : string) (serverNow : Z)
    (reviews : gmap string Review) : gmap string Review * bool :=
  match ratingIn with
  | None => (reviews, false)
  | Some r =>
      if r =? 0 then (reviews, false)
      else (<[newDocId reviews :=
                mkReview userId username stationId r reviewTextIn serverNow]> reviews,
            true)
  end.

(** ['★'.repeat(rating) + '☆'.repeat(5 - rating)], a filled star as
    [true]; [None] for the [RangeError] that [repeat] throws on a negative
    count. *)
Definition starRow (r : Z) : option (list bool) :=
  if (r <? 0) || (5 - r <? 0) then None
  else Some (replicate (Z.to_nat r) true ++ replicate (Z.to_nat (5 - r)) false).


(** ** Favourites over time *)

(** A sequence of [toggleFavorite] calls. *)
Definition toggleFavorites (ss : list string) (c : Client) (db : Store) : Store * Client :=
  foldl (fun st s => toggleFavorite s (snd st) (fst st)) (db, c) ss.

(** How often [s] occurs in [ss]. *)
Definition timesToggled (s : string) (ss : list string) : nat :=
  length (List.filter (fun x => bool_decide (x = s)) ss).

(** ** Theme *)

Definition set_theme (t : string) (p : Profile) : Profile :=
  mkProfile (favorites p) (vehicle p) t (loyaltyPoints p) (hasCompletedTour p).

(** [toggleTheme()]: [dark] tells whether the document element has the
    class [dark] before the call; the result carries it after the call.
    The write is [update({ 'profile.theme': userProfile.theme })], whose
    failure is logged and goes no further. *)
Definition toggleTheme (dark : bool) (c : Client) (db : Store) : Store * Client * bool :=
  let dark' := negb dark in
  let c' := mkClient (loggedInUser c) (localStations c)
              (set_theme (if dark' then "dark" else "light") (userProfile c)) in
  ((runTransaction
      (updateUser (loggedInUser c)
         (fun u => set_profile (set_theme (theme (userProfile c')) (profile u)) u))
      db).1,
   c', dark').
(** * Properties *)

(** ** Tactics and the transaction layer *)

Ltac unfold_txn :=
  unfold runTransaction, bind, throw, ret, getStation, updateStation,
    updateUser, addSession, addBooking, addStation, deleteSession,
    with_stations, with_sessions, with_bookings, with_users in *;
  cbn [stations activeSessions bookings users] in *.

(** Decidable statements about concrete stores are settled by
    evaluation. *)
Ltac by_computation :=
  match goal with
  | |- ?P => apply (bool_decide_unpack P); vm_compute; exact I
  end.
Ltac refute_by_computation :=
  match goal with
  | |- ~ ?P => apply (proj1 (bool_decide_eq_false P)); vm_compute; reflexivity
  end.

Lemma newDocId_fresh {V} (coll : gmap string V) : coll !! newDocId coll = None.
Proof. apply not_elem_of_dom, is_fresh. Qed.

(** ** StartSession *)

(** The three ways [startCharging] can end, read off the station
    document. *)
Lemma startCharging_missing uid stationId serverNow db :
  stations db !! stationId = None ->
  startCharging uid stationId serverNow db
  = (db, Err (Thrown "Station does not exist!")).
Proof.
  intros Hst. unfold startCharging, startChargingTxn. unfold_txn.
  by rewrite Hst.
Qed.

Lemma startCharging_full uid stationId serverNow db st :
  stations db !! stationId = Some st ->
  available (slots st) <= 0 ->
  startCharging uid stationId serverNow db
  = (db, Err (Thrown "No available slots!")).
Proof.
  intros Hst Hav. unfold startCharging, startChargingTxn. unfold_txn.
  rewrite Hst. by destruct (Z.leb_spec (available (slots st)) 0); [|lia].
Qed.

Lemma startCharging_free uid stationId serverNow db st :
  stations db !! stationId = Some st ->
  0 < available (slots st) ->
  startCharging uid stationId serverNow db
  = (mkStore (<[stationId := set_available (available (slots st) - 1) st]>
                (stations db))
             (<[newDocId (activeSessions db) := mkSession uid stationId serverNow]>
                (activeSessions db))
             (bookings db) (users db),
     Ok (newDocId (activeSessions db))).
Proof.
  intros Hst Hav. unfold startCharging, startChargingTxn. unfold_txn.
  rewrite Hst. destruct (Z.leb_spec (available (slots st)) 0); [lia|].
  cbn. by rewrite Hst.
Qed.

(** C2. [startCharging] succeeds exactly when the station document
    exists and has [slots.available > 0].  On success the station
    document afterwards is the one before with [slots.available] one
    lower and every other field, [slots.total] included, as it was; every
    other station document is untouched; one session document with
    [userId = uid], [stationId] and [startTime = serverNow] is added under
    an identifier that was unused, so there is one session more; and
    bookings and users are as before.  It throws "Station does not exist!"
    for a missing station and "No available slots!" when
    [slots.available] is 0, and on every failure the store is the one it
    started from.  Success and failure are those of the transaction: the
    statements after it render and write nothing to the store. *)
Theorem startCharging_spec (uid stationId : string) (serverNow : Z) (db : Store) :
  let out := startCharging uid stationId serverNow db in
  ((exists sid, out.2 = Ok sid) <->
   (exists st, stations db !! stationId = Some st /\ 0 < available (slots st)))
  /\ (forall sid, out.2 = Ok sid ->
        exists st,
          stations db !! stationId = Some st
          /\ stations out.1 !! stationId
             = Some (mkStation (name st) (city st) (lat st) (lng st) (mobile st)
                       (mkSlots (total (slots st)) (available (slots st) - 1))
                       (pricePerKwh st) (status st) (images st) (amenities st)
                       (chargerTypes st) (queue st) (currentPrice st))
          /\ (forall other, other <> stationId ->
                stations out.1 !! other = stations db !! other)
          /\ activeSessions db !! sid = None
          /\ activeSessions out.1 !! sid
             = Some (mkSession uid stationId serverNow)
          /\ (forall other, other <> sid ->
                activeSessions out.1 !! other = activeSessions db !! other)
          /\ size (activeSessions out.1) = S (size (activeSessions db))
          /\ bookings out.1 = bookings db
          /\ users out.1 = users db)
  /\ (stations db !! stationId = None ->
        out.2 = Err (Thrown "Station does not exist!"))
  /\ (forall st, stations db !! stationId = Some st ->
        available (slots st) = 0 ->
        out.2 = Err (Thrown "No available slots!"))
  /\ (forall e, out.2 = Err e -> out.1 = db).
Proof.
  intros out. subst out.
  destruct (stations db !! stationId) as [st|] eqn:Hst.
  - destruct (Z.leb_spec (available (slots st)) 0) as [Hle|Hlt].
    + rewrite (startCharging_full _ _ _ _ _ Hst Hle). cbn.
      split; [|split; [|split; [|split]]]; try done.
      split; [intros [sid ?]; done|].
      intros (st' & [= <-] & ?); lia.
    + rewrite (startCharging_free _ _ _ _ _ Hst Hlt). cbn.
      split; [|split; [|split; [|split]]]; try done.
      * split; intros _; [by exists st | by eexists].
      * intros sid [= <-]. exists st.
        split_and!; try done.
        -- by rewrite lookup_insert_eq.
        -- intros other Hother. by rewrite lookup_insert_ne.
        -- apply newDocId_fresh.
        -- by rewrite lookup_insert_eq.
        -- intros other Hother. by rewrite lookup_insert_ne.
        -- apply map_size_insert_None, newDocId_fresh.
      * intros st' [= <-] ?; lia.
  - rewrite (startCharging_missing _ _ _ _ Hst). cbn.
    split; [|split; [|split; [|split]]]; try done.
    split; [intros [sid ?]; done|].
    intros (st' & ? & ?); done.
Qed.

(** On the store with one free slot at station ["0"], alice's call
    succeeds with session ["0"]: the free slots go from 1 to 0 of 1, and
    the session document carries her uid, the station and the start
    time. *)
Lemma startCharging_spec_witness :
  let out := startCharging "alice" "0" 1000 lastSlotStore in
  out.2 = Ok "0"
  /\ readSlots "0" lastSlotStore = Some (mkSlots 1 1)
  /\ readSlots "0" out.1 = Some (mkSlots 1 0)
  /\ name <$> stations out.1 !! "0" = name <$> stations lastSlotStore !! "0"
  /\ activeSessions lastSlotStore !! "0" = None
  /\ activeSessions out.1 !! "0" = Some (mkSession "alice" "0" 1000)
  /\ size (activeSessions out.1) = 1%nat
  /\ bookings out.1 = bookings lastSlotStore
  /\ users out.1 = users lastSlotStore.
Proof.
  intros out.
  assert (Hok : out.2 = Ok "0") by (vm_compute; reflexivity).
  destruct (startCharging_spec "alice" "0" 1000 lastSlotStore) as (_ & Hspec & _).
  destruct (Hspec "0" Hok)
    as (st & Hst & Hst' & _ & Hfresh & Hsess & _ & Hsize & Hb & Hu).
  assert (Hbefore : stations lastSlotStore !! "0" = Some (demoStation 1 1))
    by (vm_compute; reflexivity).
  rewrite Hbefore in Hst. injection Hst as <-.
  assert (Hnone : size (activeSessions lastSlotStore) = 0%nat)
    by (vm_compute; reflexivity).
  unfold readSlots. fold out in Hst', Hsess, Hsize, Hb, Hu.
  rewrite Hst', Hbefore.
  split_and!; done.
Defined.

(** ** The slot invariant *)

Lemma store_inv_insert db id s :
  store_inv db -> slot_inv s ->
  map_Forall (fun _ s => slot_inv s) (<[id := s]> (stations db)).
Proof. intros Hdb Hs. by apply map_Forall_insert_2. Qed.

Lemma startCharging_inv uid stationId serverNow db :
  store_inv db -> store_inv (startCharging uid stationId serverNow db).1.
Proof.
  intros Hdb.
  destruct (stations db !! stationId) as [st|] eqn:Hst.
  - destruct (Z.leb_spec (available (slots st)) 0) as [Hle|Hlt].
    + by rewrite (startCharging_full _ _ _ _ _ Hst Hle).
    + rewrite (startCharging_free _ _ _ _ _ Hst Hlt).
      apply store_inv_insert; [done|].
      pose proof (Hdb _ _ Hst) as [H0 H1].
      unfold slot_inv in *; cbn; lia.
  - by rewrite (startCharging_missing _ _ _ _ Hst).
Qed.

(** What the transaction of [stopCharging] leaves in the store. *)
Lemma stopChargingTxn_run uid sessionId session serverNow dur cst kwh db :
  runTransaction (stopChargingTxn uid sessionId session serverNow dur cst kwh) db
  = match stations db !! sessStationId session, users db !! uid with
    | Some st, Some u =>
        (mkStore
           (<[sessStationId session := set_available (available (slots st) + 1) st]>
              (stations db))
           (delete sessionId (activeSessions db))
           (<[newDocId (bookings db) :=
                mkBooking (sessUserId session) (sessStationId session)
                          serverNow dur cst kwh]> (bookings db))
           (<[uid := set_loyaltyPoints (loyaltyPoints (profile u) + 10) u]>
              (users db)),
         Ok (newDocId (bookings db)))
    | None, _ => (db, Err (NoDocument "stations" (sessStationId session)))
    | Some _, None => (db, Err (NoDocument "users" uid))
    end.
Proof.
  unfold stopChargingTxn. unfold_txn.
  destruct (stations db !! sessStationId session) as [st|]; [|done].
  cbn [stations activeSessions bookings users].
  destruct (users db !! uid) as [u|]; done.
Qed.

Lemma stopCharging_stations c now serverNow sessionId db :
  stations (stopCharging c now serverNow sessionId db).1.1 = stations db
  \/ exists session st,
       activeSessions db !! sessionId = Some session
       /\ stations db !! sessStationId session = Some st
       /\ stations (stopCharging c now serverNow sessionId db).1.1
          = <[sessStationId session := set_available (available (slots st) + 1) st]>
              (stations db).
Proof.
  unfold stopCharging.
  destruct (activeSessions db !! sessionId) as [session|] eqn:Hs; [|by left].
  destruct (findStation _ _) as [stationData|]; [|by left].
  rewrite stopChargingTxn_run.
  destruct (stations db !! sessStationId session) as [st|] eqn:Hst; [|by left].
  destruct (users db !! loggedInUser c) as [u|]; [|by left].
  right. by exists session, st.
Qed.

Lemma stopCharging_inv c now serverNow sessionId db :
  store_inv db ->
  respects (StopSession c now serverNow sessionId) db ->
  store_inv (stopCharging c now serverNow sessionId db).1.1.
Proof.
  intros Hdb Hocc. unfold store_inv.
  destruct (stopCharging_stations c now serverNow sessionId db)
    as [->|(session & st & Hs & Hst & ->)]; [done|].
  apply store_inv_insert; [done|].
  pose proof (Hdb _ _ Hst) as [H0 H1].
  pose proof (Hocc _ _ Hs Hst).
  unfold slot_inv in *; cbn; lia.
Qed.

Lemma submitStationForm_stations f db :
  let out := submitStationForm f db in
  (stations out.1 = stations db)
  \/ (formAvailable f <= formTotal f
      /\ exists id s, stations out.1 = <[id := s]> (stations db)
                      /\ slots s = mkSlots (formTotal f) (formAvailable f)).
Proof.
  unfold submitStationForm.
  destruct (Z.ltb_spec (formTotal f) (formAvailable f)) as [Hlt|Hle]; [by left|].
  destruct (negb _).
  - unfold_txn. destruct (stations db !! formStationId f) as [s|]; [|by left].
    right. split; [done|]. by eexists _, _.
  - unfold_txn. right. split; [done|]. by eexists _, _.
Qed.

Lemma submitStationForm_inv f db :
  store_inv db -> 0 <= formAvailable f ->
  store_inv (submitStationForm f db).1.
Proof.
  intros Hdb Hnn. unfold store_inv.
  destruct (submitStationForm_stations f db) as [->|(Hle & id & s & -> & Hs)];
    [done|].
  apply store_inv_insert; [done|].
  unfold slot_inv. rewrite Hs. cbn. lia.
Qed.


Lemma joinQueue_known uid stationId db st :
  stations db !! stationId = Some st ->
  joinQueue uid stationId db
  = (with_stations
       (insert stationId (set_queue (arrayUnion uid (queue st)) st)) db,
     Ok tt).
Proof. intros Hst. unfold joinQueue. unfold_txn. by rewrite Hst. Qed.

Lemma joinQueue_unknown uid stationId db :
  stations db !! stationId = None ->
  joinQueue uid stationId db = (db, Err (NoDocument "stations" stationId)).
Proof. intros Hst. unfold joinQueue. unfold_txn. by rewrite Hst. Qed.

Lemma joinQueue_inv uid stationId db :
  store_inv db -> store_inv (joinQueue uid stationId db).1.
Proof.
  intros Hdb.
  destruct (stations db !! stationId) as [st|] eqn:Hst.
  - rewrite (joinQueue_known _ _ _ _ Hst).
    apply store_inv_insert; [done|]. apply (Hdb _ _ Hst).
  - by rewrite (joinQueue_unknown _ _ _ Hst).
Qed.

Lemma perform_inv a db : store_inv db -> respects a db -> store_inv (perform a db).
Proof.
  destruct a as [uid stationId serverNow | c now serverNow sessionId | f
                 | uid stationId];
    intros Hdb Ha; cbn.
  - by apply startCharging_inv.
  - by apply stopCharging_inv.
  - by apply submitStationForm_inv.
  - by apply joinQueue_inv.
Qed.




(** ** StopSession *)

(** The ways [stopCharging] can end. *)
Lemma stopCharging_no_session c now serverNow sessionId db :
  activeSessions db !! sessionId = None ->
  stopCharging c now serverNow sessionId db
  = (db, c, Err (Thrown "Session not found!")).
Proof. intros Hs. unfold stopCharging. by rewrite Hs. Qed.

Lemma stopCharging_done c now serverNow sessionId db session stationData st u :
  activeSessions db !! sessionId = Some session ->
  findStation (sessStationId session) (localStations c) = Some stationData ->
  stations db !! sessStationId session = Some st ->
  users db !! loggedInUser c = Some u ->
  stopCharging c now serverNow sessionId db
  = (mkStore
       (<[sessStationId session := set_available (available (slots st) + 1) st]>
          (stations db))
       (delete sessionId (activeSessions db))
       (<[newDocId (bookings db) :=
            mkBooking (sessUserId session) (sessStationId session) serverNow
              (elapsedSeconds now (startTime session))
              (kwhOf (elapsedSeconds now (startTime session))
               * effectivePrice stationData)%Qc
              (kwhOf (elapsedSeconds now (startTime session)))]>
          (bookings db))
       (<[loggedInUser c := set_loyaltyPoints (loyaltyPoints (profile u) + 10) u]>
          (users db)),
     mkClient (loggedInUser c) (localStations c)
              (add_loyaltyPoints 10 (userProfile c)),
     Ok (newDocId (bookings db))).
Proof.
  intros Hs Hf Hst Hu. unfold stopCharging.
  rewrite Hs, Hf, stopChargingTxn_run, Hst, Hu. done.
Qed.

Lemma stopCharging_cases c now serverNow sessionId db :
  (exists e, stopCharging c now serverNow sessionId db = (db, c, Err e))
  \/ (exists session stationData st u,
        activeSessions db !! sessionId = Some session
        /\ findStation (sessStationId session) (localStations c) = Some stationData
        /\ stations db !! sessStationId session = Some st
        /\ users db !! loggedInUser c = Some u).
Proof.
  unfold stopCharging.
  destruct (activeSessions db !! sessionId) as [session|] eqn:Hs;
    [|left; by eexists].
  destruct (findStation _ _) as [stationData|] eqn:Hf; [|left; by eexists].
  rewrite stopChargingTxn_run.
  destruct (stations db !! sessStationId session) as [st|] eqn:Hst;
    [|left; by eexists].
  destruct (users db !! loggedInUser c) as [u|] eqn:Hu; [|left; by eexists].
  right. by exists session, stationData, st, u.
Qed.

(** [stopCharging] is its two halves run on one store. *)
Lemma stopCharging_halves c now serverNow sessionId db :
  stopCharging c now serverNow sessionId db
  = finishStop c serverNow (stopChargingRead c now sessionId db) db.
Proof.
  unfold stopCharging, stopChargingRead, finishStop, stopChargingCommit.
  destruct (activeSessions db !! sessionId) as [session|]; [|done].
  cbn zeta. by destruct (findStation _ _).
Qed.

(** The two ways the transaction of [stopCharging] can end. *)
Lemma stopChargingCommit_done c serverNow p db st u :
  stations db !! sessStationId (planSession p) = Some st ->
  users db !! loggedInUser c = Some u ->
  stopChargingCommit c serverNow p db
  = (mkStore
       (<[sessStationId (planSession p) :=
            set_available (available (slots st) + 1) st]> (stations db))
       (delete (planSessionId p) (activeSessions db))
       (<[newDocId (bookings db) :=
            mkBooking (sessUserId (planSession p)) (sessStationId (planSession p))
                      serverNow (planDuration p) (planCost p) (planKwh p)]>
          (bookings db))
       (<[loggedInUser c := set_loyaltyPoints (loyaltyPoints (profile u) + 10) u]>
          (users db)),
     mkClient (loggedInUser c) (localStations c)
              (add_loyaltyPoints 10 (userProfile c)),
     Ok (newDocId (bookings db))).
Proof.
  intros Hst Hu. unfold stopChargingCommit.
  by rewrite stopChargingTxn_run, Hst, Hu.
Qed.

Lemma stopChargingCommit_cases c serverNow p db :
  (exists e, stopChargingCommit c serverNow p db = (db, c, Err e)
             /\ (stations db !! sessStationId (planSession p) = None
                 \/ users db !! loggedInUser c = None))
  \/ (exists st u,
        stations db !! sessStationId (planSession p) = Some st
        /\ users db !! loggedInUser c = Some u).
Proof.
  unfold stopChargingCommit. rewrite stopChargingTxn_run.
  destruct (stations db !! sessStationId (planSession p)) as [st|] eqn:Hst;
    [|left; eexists; split; [done|by left]].
  destruct (users db !! loggedInUser c) as [u|] eqn:Hu;
    [|left; eexists; split; [done|by right]].
  right. by exists st, u.
Qed.

(** C3 does not hold of the code.  [stopCharging] reads the session
    with a plain [sessionRef.get()] before its transaction, and the
    transaction itself reads nothing.  When "Stop Charging" is pressed
    twice on alice's only session, the second time before the first call
    has got its answer, both calls find the session and both
    transactions commit.  One session is deleted, but the station's
    [slots.available] goes from 0 to 2 of [slots.total = 1], alice gets
    20 points, and two bookings are written, the second by a call that
    commits when no session with that identifier exists.  The same two
    calls made one after the other end as C3 says: the second throws
    "Session not found!" and changes nothing. *)
Theorem stopCharging_overlapping :
  let c := aliceClient 1 0 in
  let out := overlappingStops c 3601000 3601200 3601300 3601400 "0" sharedStore in
  let first := stopCharging c 3601000 3601300 "0" sharedStore in
  let second := stopCharging first.1.2 3601200 3601400 "0" first.1.1 in
  dom (activeSessions sharedStore) = {["0"]}
  /\ readSlots "0" sharedStore = Some (mkSlots 1 0)
  /\ pointsOf "alice" sharedStore = Some 0
  /\ size (bookings sharedStore) = 0%nat
  /\ out.2 = (Ok "0", Ok "1")
  /\ activeSessions out.1.1 = ∅
  /\ readSlots "0" out.1.1 = Some (mkSlots 1 2)
  /\ pointsOf "alice" out.1.1 = Some 20
  /\ loyaltyPoints (userProfile out.1.2) = 20
  /\ size (bookings out.1.1) = 2%nat
  /\ ~ store_inv out.1.1
  /\ first.2 = Ok "0"
  /\ second = (first.1.1, first.1.2, Err (Thrown "Session not found!"))
  /\ readSlots "0" second.1.1 = Some (mkSlots 1 1)
  /\ pointsOf "alice" second.1.1 = Some 10
  /\ size (bookings second.1.1) = 1%nat.
Proof.
  cbv zeta.
  split_and!;
    first [ vm_compute; reflexivity | by_computation | refute_by_computation ].
Qed.

(** ** Effective price *)

Lemma orElse_some (p b : Qc) : p <> 0%Qc -> orElse (Some p) b = p.
Proof. intros Hp. unfold orElse. by destruct (decide (p = 0%Qc)). Qed.

Lemma orElse_zero (b : Qc) : orElse (Some 0%Qc) b = b.
Proof. unfold orElse. by destruct (decide (0%Qc = 0%Qc)). Qed.

(** C4 (as amended). The cost of the booking that a successful
    [stopCharging] writes is the energy times [currentPrice] whenever the
    station, as the client holds it, has a [currentPrice] that is set and
    not zero, whether or not it exceeds [pricePerKwh]; it is the energy
    times [pricePerKwh] when [currentPrice] is unset or zero. *)
Theorem stopCharging_price (c : Client) (now serverNow : Z) (sessionId : string)
    (db : Store) (bid : string) (b : Booking) :
  (stopCharging c now serverNow sessionId db).2 = Ok bid ->
  bookings (stopCharging c now serverNow sessionId db).1.1 !! bid = Some b ->
  exists session stationData,
    activeSessions db !! sessionId = Some session
    /\ findStation (sessStationId session) (localStations c) = Some stationData
    /\ kwhConsumed b = kwhOf (elapsedSeconds now (startTime session))
    /\ (forall p, currentPrice stationData = Some p -> p <> 0%Qc ->
          cost b = (kwhConsumed b * p)%Qc)
    /\ (currentPrice stationData = None \/ currentPrice stationData = Some 0%Qc ->
          cost b = (kwhConsumed b * pricePerKwh stationData)%Qc).
Proof.
  intros Hok Hb.
  destruct (stopCharging_cases c now serverNow sessionId db)
    as [[e' Hfail]|(session & stationData & st & u & Hs & Hf & Hst & Hu)].
  { by rewrite Hfail in Hok. }
  rewrite (stopCharging_done _ _ _ _ _ _ _ _ _ Hs Hf Hst Hu) in Hok, Hb.
  cbn in Hok, Hb. injection Hok as <-.
  rewrite lookup_insert_eq in Hb. injection Hb as <-.
  exists session, stationData. cbn. split_and!; try done.
  - intros p Hp Hnz. unfold effectivePrice. by rewrite Hp, orElse_some.
  - intros [Hp|Hp]; unfold effectivePrice; rewrite Hp; [done|].
    by rewrite orElse_zero.
Qed.

Lemma discount_stop :
  stopCharging discountClient 3601000 3601000 "0" discountStore
  = (mkStore (<["0" := set_available 1 discountStation]> (stations discountStore))
             (delete "0" (activeSessions discountStore))
             (<["0" := discountBooking]> (bookings discountStore))
             (<["alice" := mkUser "alice@example.org" "user"
                             (mkProfile [] "Other" "light" 10 false)]>
                (users discountStore)),
     mkClient "alice" [("0", discountStation)]
              (mkProfile [] "Other" "light" 10 false),
     Ok "0").
Proof.
  rewrite (stopCharging_done discountClient 3601000 3601000 "0" discountStore
             (mkSession "alice" "0" 1000) discountStation discountStation
             (mkUser "alice@example.org" "user" initialProfile));
    [|vm_compute; reflexivity..].
  assert (Hid : newDocId (bookings discountStore) = "0")
    by (vm_compute; reflexivity).
  rewrite Hid.
  assert (Hcost : (kwhOf (elapsedSeconds 3601000 (startTime (mkSession "alice" "0" 1000)))
                   * effectivePrice discountStation)%Qc = num 125)
    by (apply Qc_is_canon; vm_compute; reflexivity).
  assert (Hkwh : kwhOf (elapsedSeconds 3601000 (startTime (mkSession "alice" "0" 1000)))
                 = num 25)
    by (apply Qc_is_canon; vm_compute; reflexivity).
  rewrite Hcost, Hkwh. reflexivity.
Qed.

Lemma stopCharging_price_witness :
  exists session stationData,
    activeSessions discountStore !! "0" = Some session
    /\ findStation (sessStationId session) (localStations discountClient)
       = Some stationData
    /\ kwhConsumed discountBooking
       = kwhOf (elapsedSeconds 3601000 (startTime session))
    /\ (forall p, currentPrice stationData = Some p -> p <> 0%Qc ->
          cost discountBooking = (kwhConsumed discountBooking * p)%Qc)
    /\ (currentPrice stationData = None \/ currentPrice stationData = Some 0%Qc ->
          cost discountBooking
          = (kwhConsumed discountBooking * pricePerKwh stationData)%Qc).
Proof.
  apply (stopCharging_price discountClient 3601000 3601000 "0" discountStore "0").
  - rewrite discount_stop. reflexivity.
  - rewrite discount_stop. cbn. apply lookup_insert_eq.
Defined.

(** C4 fails as stated.  With [currentPrice = 5] set but below
    [pricePerKwh = 12], one hour of charging (25 kWh) is booked at
    [25 * 5 = 125] and not at [25 * 12 = 300]: the source takes
    [currentPrice || pricePerKwh], it does not compare the two. *)
Lemma effectivePrice_counterexample :
  currentPrice discountStation = Some (num 5)
  /\ pricePerKwh discountStation = num 12
  /\ (num 5 <= num 12)%Qc
  /\ effectivePrice discountStation = num 5
  /\ specEffectivePrice discountStation = num 12
  /\ (exists b,
        bookings (stopCharging discountClient 3601000 3601000 "0" discountStore).1.1
          !! "0" = Some b
        /\ kwhConsumed b = num 25
        /\ cost b = (num 25 * num 5)%Qc
        /\ cost b <> (num 25 * pricePerKwh discountStation)%Qc).
Proof.
  split_and!; try reflexivity.
  - by vm_compute.
  - rewrite discount_stop. cbn. exists discountBooking.
    split; [apply lookup_insert_eq|].
    split; [reflexivity|].
    split; [apply Qc_is_canon; vm_compute; reflexivity|].
    intros H. apply (f_equal this) in H. vm_compute in H. discriminate H.
Qed.

(** Where the two rules agree: no override, or an override above the
    base price. *)
Lemma effectivePrice_agrees (s : Station) :
  (currentPrice s = None
   \/ exists p, currentPrice s = Some p /\ p <> 0%Qc /\ (pricePerKwh s < p)%Qc) ->
  effectivePrice s = specEffectivePrice s.
Proof.
  unfold effectivePrice, specEffectivePrice.
  intros [->|(p & -> & Hnz & Hlt)]; [done|].
  rewrite orElse_some by done. by destruct (decide _).
Qed.

(** ** JoinQueue *)

Section ArrayUnion.
Variable x : string.

Lemma arrayUnion_present l : x ∈ l -> arrayUnion x l = l.
Proof. intros Hin. unfold arrayUnion. by destruct (decide (x ∈ l)). Qed.

Lemma arrayUnion_absent l : x ∉ l -> arrayUnion x l = l ++ [x].
Proof. intros Hin. unfold arrayUnion. by destruct (decide (x ∈ l)). Qed.

Lemma arrayUnion_prefix l : l `prefix_of` arrayUnion x l.
Proof.
  unfold arrayUnion. destruct (decide (x ∈ l)); [done|].
  by apply prefix_app_r.
Qed.

Lemma arrayUnion_NoDup l : NoDup l -> NoDup (arrayUnion x l).
Proof.
  intros Hl. unfold arrayUnion. destruct (decide (x ∈ l)); [done|].
  apply NoDup_app. split_and!; [done| |apply NoDup_singleton].
  intros y Hy ->%list_elem_of_singleton. done.
Qed.

Lemma arrayUnion_elem l : x ∈ arrayUnion x l.
Proof.
  unfold arrayUnion. destruct (decide (x ∈ l)); [done|].
  apply elem_of_app. right. by apply list_elem_of_singleton.
Qed.

End ArrayUnion.

Lemma set_queue_same st : set_queue (queue st) st = st.
Proof. by destruct st. Qed.

Lemma joinQueue_NoDup uid stationId db :
  queues_NoDup db -> queues_NoDup (joinQueue uid stationId db).1.
Proof.
  intros Hdb.
  destruct (stations db !! stationId) as [st|] eqn:Hst.
  - rewrite (joinQueue_known _ _ _ _ Hst). unfold queues_NoDup. cbn.
    apply map_Forall_insert_2; [|done]. cbn.
    apply arrayUnion_NoDup, (Hdb _ _ Hst).
  - by rewrite (joinQueue_unknown _ _ _ Hst).
Qed.

Lemma queues_NoDup_insert db id s :
  queues_NoDup db -> NoDup (queue s) ->
  map_Forall (fun _ s => NoDup (queue s)) (<[id := s]> (stations db)).
Proof. intros Hdb Hs. by apply map_Forall_insert_2. Qed.

Lemma perform_NoDup a db : queues_NoDup db -> queues_NoDup (perform a db).
Proof.
  intros Hdb.
  destruct a as [uid stationId serverNow | c now serverNow sessionId | f
                 | uid stationId]; cbn.
  - destruct (stations db !! stationId) as [st|] eqn:Hst.
    + destruct (Z.leb_spec (available (slots st)) 0) as [Hle|Hlt].
      * by rewrite (startCharging_full _ _ _ _ _ Hst Hle).
      * rewrite (startCharging_free _ _ _ _ _ Hst Hlt).
        apply queues_NoDup_insert; [done|]. apply (Hdb _ _ Hst).
    + by rewrite (startCharging_missing _ _ _ _ Hst).
  - unfold queues_NoDup.
    destruct (stopCharging_stations c now serverNow sessionId db)
      as [->|(session & st & Hs & Hst & ->)]; [done|].
    apply queues_NoDup_insert; [done|]. apply (Hdb _ _ Hst).
  - unfold submitStationForm.
    destruct (_ <? _); [done|]. destruct (negb _); unfold_txn.
    + destruct (stations db !! formStationId f) as [s|] eqn:Hs; [|done].
      apply queues_NoDup_insert; [done|]. apply (Hdb _ _ Hs).
    + apply queues_NoDup_insert; [done|]. constructor.
  - by apply joinQueue_NoDup.
Qed.

Lemma performAll_NoDup l db : queues_NoDup db -> queues_NoDup (performAll l db).
Proof.
  revert db. induction l as [|a l IH]; intros db Hdb; [done|].
  cbn. by apply IH, perform_NoDup.
Qed.

(** C5. [joinQueue] on an existing station puts the user at the end of
    the queue, after all earlier entries in their order, when the user is
    not in it, and leaves the whole store as it is when the user is
    already queued; on a missing station nothing changes.  No queue ever
    holds a user twice: whatever sequence of [joinQueue] calls, form
    submissions, starts and stops is run from the empty store, every
    queue of the resulting store is free of duplicates. *)
Theorem joinQueue_spec (uid stationId : string) (db : Store) :
  let out := joinQueue uid stationId db in
  (forall st, stations db !! stationId = Some st ->
     out.2 = Ok tt
     /\ (uid ∉ queue st ->
           stations out.1
           = <[stationId := set_queue (queue st ++ [uid]) st]> (stations db))
     /\ (uid ∈ queue st -> out.1 = db)
     /\ (exists st', stations out.1 !! stationId = Some st'
                     /\ queue st `prefix_of` queue st'
                     /\ uid ∈ queue st'
                     /\ (NoDup (queue st) -> NoDup (queue st')))
     /\ activeSessions out.1 = activeSessions db
     /\ bookings out.1 = bookings db
     /\ users out.1 = users db)
  /\ (stations db !! stationId = None -> out.1 = db)
  /\ (forall l : list action, queues_NoDup (performAll l emptyStore)).
Proof.
  intros out. subst out. split_and!.
  - intros st Hst. rewrite (joinQueue_known _ _ _ _ Hst). cbn. split_and!; try done.
    + intros Hin. by rewrite arrayUnion_absent.
    + intros Hin. rewrite arrayUnion_present, set_queue_same by done.
      unfold with_stations. rewrite insert_id by done. by destruct db.
    + eexists. split; [apply lookup_insert_eq|]. cbn.
      split_and!; [apply arrayUnion_prefix|apply arrayUnion_elem|apply arrayUnion_NoDup].
  - intros Hst. by rewrite (joinQueue_unknown _ _ _ Hst).
  - intros l. apply performAll_NoDup. apply map_Forall_empty.
Qed.


Lemma joinQueue_spec_witness :
  (joinQueue "bob" "0" sharedStore).2 = Ok tt
  /\ stations (joinQueue "bob" "0" sharedStore).1
     = <["0" := set_queue ([] ++ ["bob"]) (demoStation 1 0)]> (stations sharedStore)
  /\ (joinQueue "bob" "0" (joinQueue "bob" "0" sharedStore).1).1
     = (joinQueue "bob" "0" sharedStore).1.
Proof.
  destruct (joinQueue_spec "bob" "0" sharedStore) as (Hknown & _).
  destruct (Hknown (demoStation 1 0)) as (Hok & Hnew & _);
    [vm_compute; reflexivity|].
  destruct (joinQueue_spec "bob" "0" (joinQueue "bob" "0" sharedStore).1)
    as (Hagain & _).
  split_and!; [exact Hok| |].
  - apply Hnew. cbn. apply not_elem_of_nil.
  - destruct (Hagain (set_queue ["bob"] (demoStation 1 0))) as (_ & _ & Hsame & _);
      [vm_compute; reflexivity|].
    apply Hsame. cbn. apply elem_of_cons. by left.
Defined.

(** Three users queue at one station, one of them twice. *)
Example joinAll_example :
  queue <$> stations (joinAll [("bob", "0"); ("carol", "0"); ("bob", "0"); ("dave", "0")]
                              sharedStore) !! "0"
  = Some ["bob"; "carol"; "dave"].
Proof. vm_compute. reflexivity. Qed.

(** ** Favourites *)

Section IndexOf.
Variable x : string.

Lemma indexOfFrom_absent l i : x ∉ l -> indexOfFrom x l i = -1.
Proof.
  revert i. induction l as [|y l IH]; intros i Hx; [done|].
  apply not_elem_of_cons in Hx as [Hne Hx]. cbn.
  destruct (decide (y = x)); [congruence|]. by apply IH.
Qed.

Lemma indexOfFrom_present l i :
  x ∈ l ->
  exists n : nat,
    indexOfFrom x l i = i + Z.of_nat n
    /\ take n l ++ drop (S n) l = removeFirst x l.
Proof.
  revert i. induction l as [|y l IH]; intros i Hx.
  { by apply elem_of_nil in Hx. }
  cbn. destruct (decide (y = x)) as [->|Hne].
  - exists 0%nat. split; [lia|]. cbn. by rewrite drop_0.
  - apply elem_of_cons in Hx as [->|Hx]; [done|].
    destruct (IH (i + 1) Hx) as (n & Hn & Hcut).
    exists (S n). split; [lia|]. cbn. by rewrite Hcut.
Qed.

Lemma toggleFavoriteList_absent l : x ∉ l -> toggleFavoriteList x l = l ++ [x].
Proof.
  intros Hx. unfold toggleFavoriteList, indexOf.
  by rewrite indexOfFrom_absent.
Qed.

Lemma toggleFavoriteList_present l :
  x ∈ l -> toggleFavoriteList x l = removeFirst x l.
Proof.
  intros Hx. unfold toggleFavoriteList, indexOf.
  destruct (indexOfFrom_present l 0 Hx) as (n & -> & <-).
  destruct (Z.ltb_spec (-1) (0 + Z.of_nat n)); [|lia].
  unfold splice1. by replace (Z.to_nat (0 + Z.of_nat n)) with n by lia.
Qed.

Lemma removeFirst_other l y : y <> x -> y ∈ removeFirst x l <-> y ∈ l.
Proof.
  intros Hne. induction l as [|z l IH]; [done|]. cbn.
  destruct (decide (z = x)) as [->|Hz].
  - rewrite elem_of_cons. split; [by right|]. by intros [?|?].
  - by rewrite !elem_of_cons, IH.
Qed.

Lemma removeFirst_NoDup l :
  NoDup l -> (x ∉ removeFirst x l) /\ NoDup (removeFirst x l).
Proof.
  induction 1 as [|z l Hz Hl [IHx IHl]]; [split; [apply not_elem_of_nil|constructor]|].
  cbn. destruct (decide (z = x)) as [->|Hne]; [done|].
  split.
  - apply not_elem_of_cons. done.
  - constructor; [|done]. by rewrite removeFirst_other.
Qed.

End IndexOf.

Lemma toggleFavoriteList_flip x l :
  NoDup l ->
  (x ∈ toggleFavoriteList x l <-> x ∉ l)
  /\ (forall t, t <> x -> t ∈ toggleFavoriteList x l <-> t ∈ l)
  /\ NoDup (toggleFavoriteList x l).
Proof.
  intros Hl. destruct (decide (x ∈ l)) as [Hx|Hx].
  - rewrite (toggleFavoriteList_present _ _ Hx).
    destruct (removeFirst_NoDup x l Hl) as [Hout Hnd].
    split_and!; [done| |done].
    intros t Ht. by apply removeFirst_other.
  - rewrite (toggleFavoriteList_absent _ _ Hx).
    split_and!.
    + rewrite elem_of_app, list_elem_of_singleton. split; [done|]. by right.
    + intros t Ht. rewrite elem_of_app, list_elem_of_singleton.
      split; [by intros [?|?]|by left].
    + apply NoDup_app. split_and!; [done| |apply NoDup_singleton].
      intros y Hy ->%list_elem_of_singleton. done.
Qed.

(** C9. The favourites are a set of station identifiers, kept as an
    array that holds no identifier twice: registration writes [[]] and
    every toggle keeps it so.  On such a list [toggleFavorite(s)] flips
    the membership of [s], leaves the membership of every other
    identifier as it was, keeps the list free of duplicates, and writes
    that list into the signed-in user's document when it exists; two
    calls in a row give back a list with the members of the original
    one. *)
Theorem toggleFavorite_spec (s : string) (c : Client) (db : Store) :
  NoDup (favorites (userProfile c)) ->
  let out := toggleFavorite s c db in
  (s ∈ favorites (userProfile out.2) <-> s ∉ favorites (userProfile c))
  /\ (forall t, t <> s ->
        t ∈ favorites (userProfile out.2) <-> t ∈ favorites (userProfile c))
  /\ NoDup (favorites (userProfile out.2))
  /\ (forall u, users db !! loggedInUser c = Some u ->
        users out.1 !! loggedInUser c
        = Some (mkUser (email u) (role u) (userProfile out.2)))
  /\ (forall t, t ∈ favorites (userProfile (toggleFavorite s out.2 out.1).2)
                <-> t ∈ favorites (userProfile c)).
Proof.
  intros Hnd out. subst out. cbn.
  destruct (toggleFavoriteList_flip s _ Hnd) as (Hs & Hother & Hnd').
  destruct (toggleFavoriteList_flip s _ Hnd') as (Hs2 & Hother2 & _).
  split_and!; try done.
  - intros u Hu. unfold updateUserProfile. unfold_txn. cbn. rewrite Hu. cbn.
    apply lookup_insert_eq.
  - intros t. destruct (decide (t = s)) as [->|Hne].
    + rewrite Hs2, Hs. split; [apply dec_stable|tauto].
    + by rewrite Hother2, Hother.
Qed.

Lemma toggleFavorite_spec_witness :
  let out := toggleFavorite "0" (fanClient ["1"; "0"; "2"]) aliceStore in
  favorites (userProfile out.2) = ["1"; "2"]
  /\ ("0" ∈ favorites (userProfile out.2) <-> "0" ∉ ["1"; "0"; "2"]).
Proof.
  cbv zeta. split; [vm_compute; reflexivity|].
  apply (toggleFavorite_spec "0" (fanClient ["1"; "0"; "2"]) aliceStore).
  by_computation.
Defined.

(** Every favourites list that [toggleFavorite] builds from the one
    written at registration is free of duplicates. *)
Lemma toggleFavoriteList_history_NoDup (history : list string) :
  NoDup (foldl (fun favs s => toggleFavoriteList s favs)
               (favorites initialProfile) history).
Proof.
  assert (Hgen : forall favs, NoDup favs ->
            NoDup (foldl (fun favs s => toggleFavoriteList s favs) favs history)).
  { induction history as [|s history IH]; intros favs Hnd; [done|].
    cbn. apply IH. by apply toggleFavoriteList_flip. }
  apply Hgen. constructor.
Qed.

(** ** Registration *)

(** C10. Whenever [handleRegister] gets as far as registering a user,
    the identity provider has accepted the sign-up and the document
    written under the new user's [uid] holds the provider's [email], the
    role selected in the form and the profile
    [{favorites: [], vehicle: 'Other', theme: 'light', loyaltyPoints: 0,
    hasCompletedTour: false}]; the other user documents and the other
    collections are as before.  This happens exactly when the password
    has at least 6 UTF-16 code units and the provider accepts. *)
Theorem handleRegister_spec
    (createUser : string -> list N -> result Credential)
    (emailIn : string) (password : list N) (roleIn : string) (db : Store)
    (id : string) :
  (handleRegister createUser emailIn password roleIn db).2 = Registered id ->
  let db' := (handleRegister createUser emailIn password roleIn db).1 in
  exists user,
    createUser emailIn password = Ok user
    /\ uid user = id
    /\ (6 <= length password)%nat
    /\ users db' !! id
       = Some (mkUser (credEmail user) roleIn
                 (mkProfile [] "Other" "light" 0 false))
    /\ (forall u, users db' !! id = Some u ->
          role u = roleIn
          /\ favorites (profile u) = []
          /\ loyaltyPoints (profile u) = 0)
    /\ (forall other, other <> id -> users db' !! other = users db !! other)
    /\ stations db' = stations db
    /\ activeSessions db' = activeSessions db
    /\ bookings db' = bookings db.
Proof.
  unfold handleRegister.
  destruct (Nat.ltb_spec (length password) 6) as [Hshort|Hlong]; [done|].
  destruct (createUser emailIn password) as [user|e]; [|done].
  cbn. intros [= <-]. exists user.
  split_and!; try done.
  - apply lookup_insert_eq.
  - intros u. rewrite lookup_insert_eq. by intros [= <-].
  - intros other Hne. by apply lookup_insert_ne.
Qed.

Lemma handleRegister_spec_witness :
  exists user,
    demoAuth "alice" "alice@example.org" (asciiCodeUnits "secret1") = Ok user
    /\ uid user = "alice"
    /\ (6 <= length (asciiCodeUnits "secret1"))%nat
    /\ users aliceStore !! "alice"
       = Some (mkUser (credEmail user) "user"
                 (mkProfile [] "Other" "light" 0 false))
    /\ (forall u, users aliceStore !! "alice" = Some u ->
          role u = "user"
          /\ favorites (profile u) = []
          /\ loyaltyPoints (profile u) = 0)
    /\ (forall other, other <> "alice" ->
          users aliceStore !! other = users emptyStore !! other)
    /\ stations aliceStore = stations emptyStore
    /\ activeSessions aliceStore = activeSessions emptyStore
    /\ bookings aliceStore = bookings emptyStore.
Proof.
  apply (handleRegister_spec (demoAuth "alice") "alice@example.org" (asciiCodeUnits "secret1")
                             "user" emptyStore "alice").
  reflexivity.
Defined.

(** When [handleRegister] registers, and when it does not. *)
Lemma handleRegister_outcome createUser emailIn password roleIn db :
  (handleRegister createUser emailIn password roleIn db).2
  = if (length password <? 6)%nat then PasswordTooShort
    else match createUser emailIn password with
         | Ok user => Registered (uid user)
         | Err e => RegistrationFailed e
         end.
Proof.
  unfold handleRegister. destruct (_ <? _)%nat; [done|].
  by destruct (createUser emailIn password).
Qed.

Lemma handleRegister_unregistered createUser emailIn password roleIn db :
  (forall id, (handleRegister createUser emailIn password roleIn db).2
              <> Registered id) ->
  (handleRegister createUser emailIn password roleIn db).1 = db.
Proof.
  unfold handleRegister. destruct (_ <? _)%nat; [done|].
  destruct (createUser emailIn password) as [user|e]; [|done].
  intros H. by destruct (H (uid user)).
Qed.

(** ** The admin station form *)

Lemma submitStationForm_rejected f db :
  formTotal f < formAvailable f -> submitStationForm f db = (db, Rejected).
Proof.
  intros Hlt. unfold submitStationForm.
  by destruct (Z.ltb_spec (formTotal f) (formAvailable f)); [|lia].
Qed.

Lemma submitStationForm_create f db :
  formStationId f = "" ->
  formAvailable f <= formTotal f ->
  submitStationForm f db
  = (with_stations (insert (newDocId (stations db)) (newStationFromFormData f)) db,
     Created (newDocId (stations db))).
Proof.
  intros Hid Hle. unfold submitStationForm.
  destruct (Z.ltb_spec (formTotal f) (formAvailable f)); [lia|].
  rewrite Hid. done.
Qed.

Lemma submitStationForm_edit f db s :
  formStationId f <> "" ->
  formAvailable f <= formTotal f ->
  stations db !! formStationId f = Some s ->
  submitStationForm f db
  = (with_stations (insert (formStationId f) (updateWithFormData f s)) db,
     Updated (formStationId f)).
Proof.
  intros Hid Hle Hs. unfold submitStationForm.
  destruct (Z.ltb_spec (formTotal f) (formAvailable f)); [lia|].
  rewrite bool_decide_eq_false_2 by done. cbn [negb].
  unfold_txn. by rewrite Hs.
Qed.

(** C7. A station created through the form with [available <= total]
    reads back with exactly the submitted [slots.total] and
    [slots.available], under an identifier that was unused; a submission
    with [available > total], whether it adds or edits, is rejected and
    leaves the store as it was. *)
Theorem submitStationForm_roundtrip (f : StationForm) (db : Store) :
  let out := submitStationForm f db in
  (formStationId f = "" -> formAvailable f <= formTotal f ->
     exists id,
       out.2 = Created id
       /\ stations db !! id = None
       /\ readSlots id out.1 = Some (mkSlots (formTotal f) (formAvailable f)))
  /\ (formTotal f < formAvailable f -> out = (db, Rejected)).
Proof.
  intros out. subst out. split.
  - intros Hid Hle. rewrite (submitStationForm_create _ _ Hid Hle). cbn.
    exists (newDocId (stations db)). split_and!; [done|apply newDocId_fresh|].
    unfold readSlots. cbn. by rewrite lookup_insert_eq.
  - apply submitStationForm_rejected.
Qed.

Lemma submitStationForm_roundtrip_witness :
  (exists id,
     (submitStationForm (demoForm "" 4 3) aliceStore).2 = Created id
     /\ stations aliceStore !! id = None
     /\ readSlots id (submitStationForm (demoForm "" 4 3) aliceStore).1
        = Some (mkSlots 4 3))
  /\ submitStationForm (demoForm "" 3 4) aliceStore = (aliceStore, Rejected).
Proof.
  split.
  - apply (submitStationForm_roundtrip (demoForm "" 4 3) aliceStore);
      [reflexivity|cbn; lia].
  - apply (submitStationForm_roundtrip (demoForm "" 3 4) aliceStore). cbn; lia.
Defined.

(** C8. Saving the form for an existing station rewrites the eleven
    fields of [formData] with the submitted values and leaves the
    station's [queue] and [currentPrice], every other station and every
    other collection as they were; saving it for a new station gives a
    document whose [queue] is the empty list. *)
Theorem submitStationForm_frame (f : StationForm) (db : Store) :
  let out := submitStationForm f db in
  (forall s, formStationId f <> "" -> formAvailable f <= formTotal f ->
     stations db !! formStationId f = Some s ->
     out.2 = Updated (formStationId f)
     /\ (exists s',
           stations out.1 !! formStationId f = Some s'
           /\ queue s' = queue s
           /\ currentPrice s' = currentPrice s
           /\ name s' = formName f /\ city s' = formCity f
           /\ lat s' = formLat f /\ lng s' = formLng f
           /\ mobile s' = formMobile f
           /\ slots s' = mkSlots (formTotal f) (formAvailable f)
           /\ pricePerKwh s' = num (formPrice f)
           /\ status s' = formStatus f
           /\ images s' = [formImage f]
           /\ amenities s' = formAmenities f
           /\ chargerTypes s' = formChargers f)
     /\ (forall other, other <> formStationId f ->
           stations out.1 !! other = stations db !! other)
     /\ activeSessions out.1 = activeSessions db
     /\ bookings out.1 = bookings db
     /\ users out.1 = users db)
  /\ (formStationId f = "" -> formAvailable f <= formTotal f ->
      exists id s',
        out.2 = Created id
        /\ stations db !! id = None
        /\ stations out.1 !! id = Some s'
        /\ queue s' = []).
Proof.
  intros out. subst out. split.
  - intros s Hid Hle Hs. rewrite (submitStationForm_edit _ _ _ Hid Hle Hs). cbn.
    split_and!; try done.
    + eexists. split; [apply lookup_insert_eq|]. done.
    + intros other Hne. by apply lookup_insert_ne.
  - intros Hid Hle. rewrite (submitStationForm_create _ _ Hid Hle). cbn.
    eexists _, _. split_and!; [done|apply newDocId_fresh|apply lookup_insert_eq|done].
Qed.

Lemma submitStationForm_frame_witness :
  exists s',
    stations (submitStationForm (demoForm "0" 3 2) busyStore).1 !! "0" = Some s'
    /\ queue s' = ["bob"; "carol"]
    /\ currentPrice s' = Some (num 20)
    /\ slots s' = mkSlots 3 2.
Proof.
  destruct (submitStationForm_frame (demoForm "0" 3 2) busyStore) as [Hedit _].
  destruct (Hedit busyStation) as (_ & (s' & Hs' & Hq & Hp & Hrest) & _).
  - discriminate.
  - cbn; lia.
  - apply lookup_insert_eq.
  - exists s'. split_and!; [done|done|done|]. apply Hrest.
Defined.

(** ** Racing StartSession calls: every schedule *)

(** Every race can be run to its end. *)
Lemma race_completes stationId calls db log :
  exists db' log', rtc (commit stationId) (db, calls, log) (db', [], log').
Proof.
  revert db log. induction calls as [|[u t] calls IH]; intros db log.
  - by exists db, log.
  - destruct (IH (startCharging u stationId t db).1
                 (log ++ [mkServed u (startCharging u stationId t db).2
                            (availableAt stationId (startCharging u stationId t db).1)]))
      as (db' & log' & Hrun).
    exists db', log'. eapply rtc_l; [|exact Hrun].
    apply (commit_any stationId db [] u t calls log).
Qed.

(** One commit, as seen from the station's counter. *)
Lemma commit_one stationId u t db st :
  stations db !! stationId = Some st ->
  0 <= available (slots st) ->
  let out := startCharging u stationId t db in
  (0 < available (slots st) ->
     succeeded (mkServed u out.2 (availableAt stationId out.1)) = true
     /\ refused (mkServed u out.2 (availableAt stationId out.1)) = false
     /\ availableAt stationId out.1 = Some (available (slots st) - 1)
     /\ exists st', stations out.1 !! stationId = Some st'
                    /\ available (slots st') = available (slots st) - 1)
  /\ (available (slots st) = 0 ->
        succeeded (mkServed u out.2 (availableAt stationId out.1)) = false
        /\ refused (mkServed u out.2 (availableAt stationId out.1)) = true
        /\ out.1 = db).
Proof.
  intros Hst Hnn out. subst out. split.
  - intros Hpos. rewrite (startCharging_free _ _ _ _ _ Hst Hpos).
    unfold availableAt. cbn. rewrite lookup_insert_eq. cbn.
    split_and!; try done. by eexists.
  - intros Hzero. rewrite (startCharging_full _ _ _ _ _ Hst) by lia. done.
Qed.

Lemma race_outcome stationId (r r' : Race) :
  rtc (commit stationId) r r' ->
  forall st, stations r.1.1 !! stationId = Some st ->
  0 <= available (slots st) ->
  r'.1.2 = [] ->
  let a := available (slots st) in
  let n := Z.of_nat (length r.1.2) in
  exists new,
    r'.2 = r.2 ++ new
    /\ Z.of_nat (length new) = n
    /\ Z.of_nat (successes new) = Z.min a n
    /\ Z.of_nat (refusals new) = n - Z.min a n
    /\ (forall v, Some v ∈ observed new -> a - Z.min a n <= v < a)
    /\ (None ∉ observed new)
    /\ NoDup (observed new)
    /\ availableAt stationId r'.1.1 = Some (a - Z.min a n).
Proof.
  induction 1 as [r|r1 r2 r3 Hstep Hrun IH]; intros st Hst Hnn Hend a n; subst a n.
  - exists []. rewrite Hend, app_nil_r. unfold availableAt. rewrite Hst. cbn.
    replace (Z.min (available (slots st)) 0) with 0 by lia.
    unfold observed, successes, refusals. cbn.
    split_and!; try done; try lia.
    + intros v Hv. by apply elem_of_nil in Hv.
    + apply not_elem_of_nil.
    + constructor.
    + f_equal. lia.
  - destruct Hstep as [db before u t after log]. cbn [fst snd] in *.
    destruct (commit_one stationId u t db st Hst Hnn) as [Hfree Hfull].
    rewrite length_app. cbn [length]. rewrite length_app in IH.
    destruct (decide (0 < available (slots st))) as [Hpos|Hzero].
    + destruct (Hfree Hpos) as (Hsucc & Href & Hseen & st' & Hst' & Hav').
      destruct (IH st' Hst' ltac:(lia) Hend)
        as (new & Hlog & Hlen & Hs & Hr & Hrange & Hnone & Hnd & Hfinal).
      rewrite Hav' in *.
      exists (mkServed u (startCharging u stationId t db).2
                (availableAt stationId (startCharging u stationId t db).1) :: new).
      unfold successes, refusals, observed in *. cbn [List.filter].
      rewrite Hsucc, Href. cbn [length fmap list_fmap seen]. rewrite Hseen.
      split_and!.
      * by rewrite Hlog, <- app_assoc, Hseen.
      * lia.
      * lia.
      * lia.
      * intros v [[= ->]|Hv]%elem_of_cons; [lia|]. apply Hrange in Hv. lia.
      * intros [?|?]%elem_of_cons; done.
      * constructor; [|done]. intros Hv%Hrange. lia.
      * rewrite Hfinal. f_equal. lia.
    + destruct (Hfull ltac:(lia)) as (Hsucc & Href & Hsame).
      destruct (IH st ltac:(by rewrite Hsame) Hnn Hend)
        as (new & Hlog & Hlen & Hs & Hr & Hrange & Hnone & Hnd & Hfinal).
      exists (mkServed u (startCharging u stationId t db).2
                (availableAt stationId (startCharging u stationId t db).1) :: new).
      unfold successes, refusals, observed in *. cbn [List.filter].
      rewrite Hsucc, Href. cbn [length].
      split_and!.
      * by rewrite Hlog, <- app_assoc.
      * lia.
      * lia.
      * lia.
      * intros v Hv%Hrange. lia.
      * done.
      * done.
      * rewrite Hfinal. f_equal. lia.
Qed.

(** C6. Let [N] calls to [startCharging] race for a station with
    [slots.available = k], [0 <= k < N].  The race can be run to its end,
    and however the calls are ordered, exactly [k] of them succeed,
    exactly [N - k] end with "No available slots!", the successful ones
    each leave a different [slots.available] behind them, and the station
    ends with none available. *)
Theorem startCharging_race (stationId : string) (db : Store) (st : Station)
    (calls : list (string * Z)) :
  stations db !! stationId = Some st ->
  0 <= available (slots st) < Z.of_nat (length calls) ->
  (exists db' log, rtc (commit stationId) (db, calls, []) (db', [], log))
  /\ (forall db' log,
        rtc (commit stationId) (db, calls, []) (db', [], log) ->
        length log = length calls
        /\ Z.of_nat (successes log) = available (slots st)
        /\ Z.of_nat (refusals log) = Z.of_nat (length calls) - available (slots st)
        /\ NoDup (observed log)
        /\ availableAt stationId db' = Some 0).
Proof.
  intros Hst Hk. split; [apply race_completes|].
  intros db' log Hrun.
  destruct (race_outcome stationId _ _ Hrun st Hst ltac:(lia) eq_refl)
    as (new & Hlog & Hlen & Hs & Hr & _ & _ & Hnd & Hfinal).
  cbn [fst snd app] in *. subst log.
  replace (Z.min (available (slots st)) (Z.of_nat (length calls)))
    with (available (slots st)) in * by lia.
  split_and!; [lia|done|done|done|].
  rewrite Hfinal. f_equal. lia.
Qed.

Lemma startCharging_race_witness :
  (exists db' log,
     rtc (commit "0") (lastSlotStore, lastSlotCalls, []) (db', [], log))
  /\ (forall db' log,
        rtc (commit "0") (lastSlotStore, lastSlotCalls, []) (db', [], log) ->
        length log = 2%nat
        /\ Z.of_nat (successes log) = 1
        /\ Z.of_nat (refusals log) = 2 - 1
        /\ NoDup (observed log)
        /\ availableAt "0" db' = Some 0).
Proof.
  apply (startCharging_race "0" lastSlotStore (demoStation 1 1) lastSlotCalls).
  - vm_compute. reflexivity.
  - cbn. lia.
Defined.

(** The two orders of that race: whoever commits first gets the slot. *)
Example last_slot_alice_first :
  let out1 := startCharging "alice" "0" 1000 lastSlotStore in
  let out2 := startCharging "bob" "0" 1000 out1.1 in
  out1.2 = Ok "0" /\ out2.2 = Err (Thrown "No available slots!")
  /\ availableAt "0" out2.1 = Some 0.
Proof. cbv zeta. split_and!; vm_compute; reflexivity. Qed.

Example last_slot_bob_first :
  let out1 := startCharging "bob" "0" 1000 lastSlotStore in
  let out2 := startCharging "alice" "0" 1000 out1.1 in
  out1.2 = Ok "0" /\ out2.2 = Err (Thrown "No available slots!")
  /\ sessUserId <$> activeSessions out2.1 !! "0" = Some "bob".
Proof. cbv zeta. split_and!; vm_compute; reflexivity. Qed.

(** The scenario of the specification: one slot; alice starts, bob is
    refused and queues, alice stops after an hour. *)
Example scenario :
  let db1 := (startCharging "alice" "0" 1000 lastSlotStore).1 in
  let db2 := (joinQueue "bob" "0" (startCharging "bob" "0" 2000 db1).1).1 in
  let out := stopCharging (aliceClient 1 0) 3601000 3601000 "0" db2 in
  availableAt "0" db1 = Some 0
  /\ (startCharging "bob" "0" 2000 db1).2 = Err (Thrown "No available slots!")
  /\ queue <$> stations db2 !! "0" = Some ["bob"]
  /\ out.2 = Ok "0"
  /\ availableAt "0" out.1.1 = Some 1
  /\ pointsOf "alice" out.1.1 = Some 10
  /\ (fun b => (bookUserId b, duration b)) <$> bookings out.1.1 !! "0"
     = Some ("alice", 3600).
Proof. cbv zeta. split_and!; vm_compute; reflexivity. Qed.

(** * Further properties *)

(** ** Station status, action button and queue position *)

Lemma getStationStatus_text (s : Station) :
  text (getStationStatus s)
  = if bool_decide (status s <> "Operational") then "Under Maintenance"
    else if bool_decide (available (slots s) = 0) then "Busy" else "Available".
Proof. unfold getStationStatus. by repeat case_bool_decide. Qed.

(** X1. The card's button tells what booking will do.  For a station
    document whose [slots.available] is not negative: when the card
    offers "Book Now", [startCharging] on it succeeds; when the card
    offers "Join Queue" or shows "In Queue", [startCharging] ends with
    "No available slots!" and changes nothing.  The disabled "Unavailable"
    button of a station under maintenance is a matter of the card only:
    [startCharging] does not look at [status]. *)
Theorem actionButton_startCharging (uid stationId : string) (serverNow : Z)
    (db : Store) (st : Station) :
  stations db !! stationId = Some st ->
  0 <= available (slots st) ->
  (actionButtonOf uid st = BookNowButton ->
     exists sid, (startCharging uid stationId serverNow db).2 = Ok sid)
  /\ (actionButtonOf uid st = JoinQueueButton
      \/ (exists n, actionButtonOf uid st = InQueueButton n) ->
      startCharging uid stationId serverNow db
      = (db, Err (Thrown "No available slots!")))
  /\ (actionButtonOf uid st = UnavailableButton ->
      ((exists sid, (startCharging uid stationId serverNow db).2 = Ok sid)
       <-> 0 < available (slots st))).
Proof.
  intros Hst Hnn. unfold actionButtonOf. rewrite getStationStatus_text.
  destruct (decide (status st = "Operational")) as [Hop|Hop].
  - rewrite (bool_decide_eq_false_2 (status st <> "Operational")) by tauto.
    destruct (decide (available (slots st) = 0)) as [Hz|Hz].
    + rewrite (bool_decide_eq_true_2 _ Hz). cbn.
      split_and!.
      * by destruct (bool_decide (uid ∈ queue st)).
      * intros _. apply (startCharging_full _ _ _ _ _ Hst). lia.
      * by destruct (bool_decide (uid ∈ queue st)).
    + rewrite (bool_decide_eq_false_2 _ Hz). cbn.
      split_and!; try done.
      * intros _. rewrite (startCharging_free _ _ _ _ _ Hst) by lia. by eexists.
      * intros [?|[n ?]]; done.
  - rewrite (bool_decide_eq_true_2 _ Hop). cbn.
    split_and!; try done.
    + intros [?|[n ?]]; done.
    + intros _. split.
      * intros [sid Hok].
        destruct (Z.leb_spec (available (slots st)) 0) as [Hle|Hlt]; [|done].
        by rewrite (startCharging_full _ _ _ _ _ Hst Hle) in Hok.
      * intros Hpos. rewrite (startCharging_free _ _ _ _ _ Hst Hpos). by eexists.
Qed.

Lemma actionButton_startCharging_witness :
  exists sid, (startCharging "alice" "0" 1000 lastSlotStore).2 = Ok sid.
Proof.
  destruct (actionButton_startCharging "alice" "0" 1000 lastSlotStore
              (demoStation 1 1)) as (Hbook & _).
  - vm_compute. reflexivity.
  - cbn. lia.
  - apply Hbook. vm_compute. reflexivity.
Defined.

Lemma indexOfFrom_app_present (x : string) (l k : list string) (i : Z) :
  x ∈ l -> indexOfFrom x (l ++ k) i = indexOfFrom x l i.
Proof.
  revert i. induction l as [|y l IH]; intros i Hx.
  { by apply elem_of_nil in Hx. }
  cbn. destruct (decide (y = x)); [done|].
  apply elem_of_cons in Hx as [->|Hx]; [done|]. by apply IH.
Qed.

Lemma indexOfFrom_app_absent (x : string) (l : list string) (i : Z) :
  x ∉ l -> indexOfFrom x (l ++ [x]) i = i + Z.of_nat (length l).
Proof.
  revert i. induction l as [|y l IH]; intros i Hx; cbn.
  - destruct (decide (x = x)); [lia|done].
  - apply not_elem_of_cons in Hx as [Hne Hx].
    destruct (decide (y = x)); [congruence|]. rewrite IH by done. lia.
Qed.

Lemma indexOfFrom_lookup (x : string) (l : list string) (i : Z) :
  x ∈ l ->
  exists n : nat, indexOfFrom x l i = i + Z.of_nat n /\ l !! n = Some x
                  /\ (n < length l)%nat.
Proof.
  revert i. induction l as [|y l IH]; intros i Hx.
  { by apply elem_of_nil in Hx. }
  cbn. destruct (decide (y = x)) as [->|Hne].
  - exists 0%nat. split_and!; [lia|done|cbn; lia].
  - apply elem_of_cons in Hx as [->|Hx]; [done|].
    destruct (IH (i + 1) Hx) as (n & Hn & Hl & Hlt).
    exists (S n). split_and!; [lia|done|cbn; lia].
Qed.

(** X2. The number on the "In Queue (#n)" button.  A user who is queued
    is shown a position between 1 and the length of the queue, and the
    queue holds that user at that position.  When a user who is not yet
    queued joins, the position shown to that user is the old length plus
    one, and nobody who was queued before is shown a different position
    than before. *)
Theorem queue_position (uid stationId : string) (db : Store) (st : Station) :
  stations db !! stationId = Some st ->
  (forall v, v ∈ queue st ->
     1 <= indexOf v (queue st) + 1 <= Z.of_nat (length (queue st))
     /\ queue st !! Z.to_nat (indexOf v (queue st)) = Some v)
  /\ (uid ∉ queue st ->
      exists st',
        stations (joinQueue uid stationId db).1 !! stationId = Some st'
        /\ indexOf uid (queue st') + 1 = Z.of_nat (length (queue st)) + 1
        /\ (forall v, v ∈ queue st ->
              indexOf v (queue st') = indexOf v (queue st))).
Proof.
  intros Hst. split.
  - intros v Hv. unfold indexOf.
    destruct (indexOfFrom_lookup v (queue st) 0 Hv) as (n & -> & Hn & Hlt).
    split; [lia|]. by replace (Z.to_nat (0 + Z.of_nat n)) with n by lia.
  - intros Hnew. rewrite (joinQueue_known _ _ _ _ Hst). cbn.
    eexists. split; [apply lookup_insert_eq|]. cbn.
    rewrite arrayUnion_absent by done. unfold indexOf. split.
    + rewrite indexOfFrom_app_absent by done. lia.
    + intros v Hv. by apply indexOfFrom_app_present.
Qed.

Lemma queue_position_witness :
  exists st',
    stations (joinQueue "dave" "0" busyStore).1 !! "0" = Some st'
    /\ indexOf "dave" (queue st') + 1 = Z.of_nat (length (queue busyStation)) + 1
    /\ (forall v, v ∈ queue busyStation ->
          indexOf v (queue st') = indexOf v (queue busyStation)).
Proof.
  destruct (queue_position "dave" "0" busyStore busyStation) as (_ & Hjoin).
  - apply lookup_insert_eq.
  - apply Hjoin. by_computation.
Defined.

(** X3. What the card shows around [joinQueue].  On a busy station (in
    operation, no free slot) a user who is not queued is offered
    "Join Queue"; after [joinQueue] the card shows "In Queue" with the
    old queue length plus one, and a second [joinQueue] is not on offer
    any more. *)
Theorem actionButton_joinQueue (uid stationId : string) (db : Store) (st : Station) :
  stations db !! stationId = Some st ->
  status st = "Operational" ->
  available (slots st) = 0 ->
  uid ∉ queue st ->
  actionButtonOf uid st = JoinQueueButton
  /\ exists st',
       stations (joinQueue uid stationId db).1 !! stationId = Some st'
       /\ actionButtonOf uid st'
          = InQueueButton (Z.of_nat (length (queue st)) + 1).
Proof.
  intros Hst Hop Hz Hnew. split.
  - unfold actionButtonOf. rewrite getStationStatus_text.
    rewrite (bool_decide_eq_false_2 (status st <> "Operational")) by tauto.
    rewrite (bool_decide_eq_true_2 _ Hz). cbn.
    by rewrite (bool_decide_eq_false_2 _ Hnew).
  - rewrite (joinQueue_known _ _ _ _ Hst). cbn.
    eexists. split; [apply lookup_insert_eq|].
    unfold actionButtonOf. rewrite getStationStatus_text. cbn.
    rewrite (bool_decide_eq_false_2 (status st <> "Operational")) by tauto.
    rewrite (bool_decide_eq_true_2 _ Hz). cbn.
    rewrite (bool_decide_eq_true_2 _ (arrayUnion_elem uid (queue st))).
    rewrite arrayUnion_absent by done. unfold indexOf.
    rewrite indexOfFrom_app_absent by done. f_equal; lia.
Qed.

Lemma actionButton_joinQueue_witness :
  actionButtonOf "dave" busyStation = JoinQueueButton
  /\ exists st',
       stations (joinQueue "dave" "0" busyStore).1 !! "0" = Some st'
       /\ actionButtonOf "dave" st' = InQueueButton (Z.of_nat 2 + 1).
Proof.
  apply (actionButton_joinQueue "dave" "0" busyStore busyStation).
  - apply lookup_insert_eq.
  - reflexivity.
  - reflexivity.
  - by_computation.
Defined.

(** ** Peak badge and price *)

(** X4. The "PEAK" badge and the price that is charged.  For a station
    whose [pricePerKwh] is not negative, the badge shows exactly when the
    price used for estimates and bookings,
    [currentPrice || pricePerKwh], is above [pricePerKwh]; the price used
    is never above [pricePerKwh] without the badge. *)
Theorem isPeak_effectivePrice (s : Station) :
  (0 <= pricePerKwh s)%Qc ->
  (isPeak s = true <-> (pricePerKwh s < effectivePrice s)%Qc)
  /\ (isPeak s = true -> currentPrice s = Some (effectivePrice s))
  /\ (isPeak s = false -> (effectivePrice s <= pricePerKwh s)%Qc).
Proof.
  intros Hbase. unfold isPeak, effectivePrice, orElse.
  destruct (currentPrice s) as [p|].
  - destruct (decide (p = 0%Qc)) as [->|Hnz].
    + rewrite bool_decide_eq_false_2
        by (intros Hlt; apply (Qclt_not_le _ _ Hlt), Hbase).
      split_and!; [split; [done|]|done|intros _; apply Qcle_refl].
      intros Hlt. by destruct (Qclt_not_eq _ _ Hlt).
    + split_and!.
      * by rewrite bool_decide_eq_true.
      * done.
      * intros Hnp%bool_decide_eq_false. by apply Qcnot_lt_le.
  - split_and!; [split; [done|]|done|intros _; apply Qcle_refl].
    intros Hlt. by destruct (Qclt_not_eq _ _ Hlt).
Qed.

Lemma isPeak_effectivePrice_witness :
  (isPeak busyStation = true
   <-> (pricePerKwh busyStation < effectivePrice busyStation)%Qc)
  /\ (isPeak busyStation = true
      -> currentPrice busyStation = Some (effectivePrice busyStation))
  /\ (isPeak busyStation = false
      -> (effectivePrice busyStation <= pricePerKwh busyStation)%Qc).
Proof. apply (isPeak_effectivePrice busyStation). by vm_compute. Defined.

(** ** Deleting a station *)

(** X5. Deleting a station does not touch the sessions that run at it,
    and such a session can then not be stopped any more: every
    [stopCharging] on it fails and leaves the store and the client as they
    are, so the session document stays.  On the deleted identifier,
    [startCharging] throws "Station does not exist!" and [joinQueue] is
    rejected. *)
Theorem deleteStation_orphans (stationId sessionId uid : string) (db : Store)
    (session : Session) (c : Client) (now serverNow : Z) :
  activeSessions db !! sessionId = Some session ->
  sessStationId session = stationId ->
  let db' := deleteStation true stationId db in
  activeSessions db' !! sessionId = Some session
  /\ (exists e, stopCharging c now serverNow sessionId db' = (db', c, Err e))
  /\ startCharging uid stationId serverNow db'
     = (db', Err (Thrown "Station does not exist!"))
  /\ joinQueue uid stationId db' = (db', Err (NoDocument "stations" stationId)).
Proof.
  intros Hs Hid db'. subst db'. cbn [deleteStation].
  assert (Hgone : stations (with_stations (delete stationId) db) !! stationId = None)
    by apply lookup_delete_eq.
  split_and!.
  - done.
  - destruct (stopCharging_cases c now serverNow sessionId
                (with_stations (delete stationId) db))
      as [Hfail|(session' & stationData & st & u & Hs' & _ & Hst & _)]; [done|].
    cbn in Hs'. rewrite Hs in Hs'. injection Hs' as <-.
    rewrite Hid in Hst. by rewrite Hgone in Hst.
  - by apply startCharging_missing.
  - by apply joinQueue_unknown.
Qed.

Lemma deleteStation_orphans_witness :
  activeSessions (deleteStation true "0" sharedStore) !! "0"
  = Some (mkSession "alice" "0" 1000)
  /\ (exists e, stopCharging (aliceClient 1 0) 3601000 3601000 "0"
                  (deleteStation true "0" sharedStore)
                = (deleteStation true "0" sharedStore, aliceClient 1 0, Err e))
  /\ startCharging "bob" "0" 3601000 (deleteStation true "0" sharedStore)
     = (deleteStation true "0" sharedStore, Err (Thrown "Station does not exist!"))
  /\ joinQueue "bob" "0" (deleteStation true "0" sharedStore)
     = (deleteStation true "0" sharedStore, Err (NoDocument "stations" "0")).
Proof.
  apply (deleteStation_orphans "0" "0" "bob" sharedStore (mkSession "alice" "0" 1000)
           (aliceClient 1 0) 3601000 3601000).
  - vm_compute. reflexivity.
  - reflexivity.
Defined.

(** ** The charging estimate *)

Lemma num_mult (a b : Z) : (num a * num b)%Qc = num (a * b).
Proof.
  unfold num. apply Qc_is_canon. cbn.
  rewrite !Qred_correct. unfold Qeq, inject_Z. cbn. lia.
Qed.





Lemma num_1 : num 1 = 1%Qc.
Proof. by apply Qc_is_canon. Qed.






(** ** Filtering the station list *)

Lemma includes_empty (s : string) : includes s "" = true.
Proof. by destruct s. Qed.

Lemma filter_sublist {A} (f : A -> bool) (l : list A) : List.filter f l `sublist_of` l.
Proof.
  induction l as [|x l IH]; cbn; [constructor|].
  destruct (f x); by constructor.
Qed.

Lemma filter_all {A} (f : A -> bool) (l : list A) :
  (forall x, f x = true) -> List.filter f l = l.
Proof.
  intros Hf. induction l as [|x l IH]; cbn; [done|]. by rewrite Hf, IH.
Qed.

Lemma filter_filter_and {A} (f g : A -> bool) (l : list A) :
  List.filter f (List.filter g l) = List.filter (fun x => g x && f x) l.
Proof.
  induction l as [|x l IH]; cbn; [done|].
  destruct (g x); cbn; [|done]. destruct (f x); by rewrite IH.
Qed.

(** X8. The station list after filtering.  The stations shown are
    stations of the local array, in its order.  With no filter set (the
    initial [{}], or blank controls and an unchecked box) every station
    is shown.  With "Show Available Only" checked every station shown has
    [slots.available > 0]; and checking the box on top of any other
    filters removes the stations with [slots.available <= 0] and nothing
    else. *)
Theorem getFilteredStations_spec (toLowerCase : string -> string)
    (fs : FilterState) (l : list (string * Station)) :
  getFilteredStations toLowerCase fs l `sublist_of` l
  /\ getFilteredStations toLowerCase (mkFilterState None None None None) l = l
  /\ (toLowerCase "" = "" ->
      getFilteredStations toLowerCase (applyFilters "" "" "" false) l = l)
  /\ (availableOnly fs = Some true ->
      forall p, p ∈ getFilteredStations toLowerCase fs l ->
                0 < available (slots (snd p)))
  /\ getFilteredStations toLowerCase (set_availableOnly true fs) l
     = List.filter (fun p => 0 <? available (slots (snd p)))
         (getFilteredStations toLowerCase (set_availableOnly false fs) l).
Proof.
  unfold getFilteredStations. split_and!.
  - apply filter_sublist.
  - apply filter_all. intros [id s]. unfold stationMatches. cbn.
    by rewrite includes_empty.
  - intros Hlow. apply filter_all. intros [id s]. unfold stationMatches. cbn.
    by rewrite Hlow, includes_empty.
  - intros Hav p Hp. apply list_elem_of_In, filter_In in Hp as [_ Hm].
    unfold stationMatches in Hm. rewrite Hav in Hm. cbn in Hm.
    apply andb_true_iff in Hm as [_ Hm]. by apply Z.ltb_lt.
  - rewrite filter_filter_and. apply filter_ext. intros [id s].
    unfold stationMatches. cbn. by rewrite !andb_true_r.
Qed.

Lemma getFilteredStations_spec_witness :
  getFilteredStations asciiToLowerCase (applyFilters "" "" "" false)
    [("0", busyStation); ("1", demoStation 2 1)]
  = [("0", busyStation); ("1", demoStation 2 1)]
  /\ getFilteredStations asciiToLowerCase (applyFilters "green" "CCS" "" true)
       [("0", busyStation); ("1", demoStation 2 1)]
     = [("1", demoStation 2 1)].
Proof.
  split; [|vm_compute; reflexivity].
  apply (getFilteredStations_spec asciiToLowerCase (applyFilters "" "" "" false)).
  reflexivity.
Defined.

(** ** Analytics *)






(** ** Trip planner *)






(** ** Book-keeping across operations *)

(** X11. Start, then stop.  When a user books a free slot and later
    stops that very session (the client knowing the station, the user's
    document existing), the station documents and the active sessions are
    back to what they were before the booking; what remains is one more
    booking, for that user and station, and ten more loyalty points for
    the signed-in user. *)
Theorem start_stop_roundtrip (c : Client) (stationId : string)
    (t now serverNow : Z) (db : Store) (st stationData : Station) (u : User) :
  stations db !! stationId = Some st ->
  0 < available (slots st) ->
  users db !! loggedInUser c = Some u ->
  findStation stationId (localStations c) = Some stationData ->
  let started := startCharging (loggedInUser c) stationId t db in
  let stopped := stopCharging c now serverNow (newDocId (activeSessions db))
                              started.1 in
  started.2 = Ok (newDocId (activeSessions db))
  /\ stopped.2 = Ok (newDocId (bookings db))
  /\ stations stopped.1.1 = stations db
  /\ activeSessions stopped.1.1 = activeSessions db
  /\ bookings db !! newDocId (bookings db) = None
  /\ (exists b, bookings stopped.1.1 = <[newDocId (bookings db) := b]> (bookings db)
                /\ bookUserId b = loggedInUser c
                /\ bookStationId b = stationId
                /\ duration b = (now - t) / 1000)
  /\ users stopped.1.1
     = <[loggedInUser c := set_loyaltyPoints (loyaltyPoints (profile u) + 10) u]>
         (users db).
Proof.
  intros Hst Hfree Hu Hfind started stopped. subst started stopped.
  rewrite (startCharging_free _ _ _ _ _ Hst Hfree). cbn [fst snd].
  erewrite stopCharging_done; cbn;
    [|apply lookup_insert_eq|exact Hfind|apply lookup_insert_eq|exact Hu].
  split_and!; try done.
  - rewrite insert_insert_eq. apply insert_id. rewrite Hst. f_equal.
    destruct st as [? ? ? ? ? [tot av] ? ? ? ? ? ? ?]. cbn. unfold set_available. cbn.
    do 2 f_equal. lia.
  - rewrite delete_insert_eq. apply delete_id, newDocId_fresh.
  - apply newDocId_fresh.
  - eexists. split; [reflexivity|]. done.
Qed.

Lemma start_stop_roundtrip_witness :
  let started := startCharging "alice" "0" 1000 lastSlotStore in
  let stopped := stopCharging (aliceClient 1 1) 3601000 3601000 "0" started.1 in
  stations stopped.1.1 = stations lastSlotStore
  /\ activeSessions stopped.1.1 = activeSessions lastSlotStore
  /\ pointsOf "alice" stopped.1.1 = Some 10.
Proof.
  cbv zeta.
  destruct (start_stop_roundtrip (aliceClient 1 1) "0" 1000 3601000 3601000
              lastSlotStore (demoStation 1 1) (demoStation 1 1)
              (mkUser "alice@example.org" "user" initialProfile))
    as (_ & _ & Hs & Ha & _ & _ & Hu); try (vm_compute; reflexivity).
  assert (Hid : newDocId (activeSessions lastSlotStore) = "0")
    by (vm_compute; reflexivity).
  rewrite Hid in Hs, Ha, Hu.
  change (loggedInUser (aliceClient 1 1)) with "alice" in Hs, Ha, Hu.
  split_and!; [exact Hs|exact Ha|].
  unfold pointsOf. rewrite Hu. by rewrite lookup_insert_eq.
Defined.

(** X12. The profile on screen stays the stored one.  When the client's
    [userProfile] equals the profile in the signed-in user's document, it
    still does after [stopCharging], however it ends, and after
    [toggleFavorite]; therefore marking a favourite after a completed
    session writes back the ten points just earned and does not undo
    them. *)
Theorem profileInSync_preserved (c : Client) (db : Store) :
  profileInSync c db ->
  (forall now serverNow sessionId,
     let out := stopCharging c now serverNow sessionId db in
     profileInSync out.1.2 out.1.1)
  /\ (forall s, let out := toggleFavorite s c db in profileInSync out.2 out.1)
  /\ (forall now serverNow sessionId bid s p,
        let out := stopCharging c now serverNow sessionId db in
        out.2 = Ok bid ->
        pointsOf (loggedInUser c) db = Some p ->
        pointsOf (loggedInUser c) (toggleFavorite s out.1.2 out.1.1).1
        = Some (p + 10)).
Proof.
  intros (u & Hu & Hsync).
  assert (Hstop : forall now serverNow sessionId,
            let out := stopCharging c now serverNow sessionId db in
            profileInSync out.1.2 out.1.1
            /\ (forall bid, out.2 = Ok bid ->
                  loggedInUser out.1.2 = loggedInUser c
                  /\ loyaltyPoints (userProfile out.1.2)
                     = loyaltyPoints (profile u) + 10)).
  { intros now serverNow sessionId. cbv zeta.
    destruct (stopCharging_cases c now serverNow sessionId db)
      as [[e Hfail]|(session & stationData & st & u' & Hs & Hf & Hst & Hu')].
    - rewrite Hfail. cbn. split; [by exists u|done].
    - rewrite Hu in Hu'. injection Hu' as <-.
      rewrite (stopCharging_done _ _ _ _ _ _ _ _ _ Hs Hf Hst Hu). cbn. split.
      + eexists. split; [apply lookup_insert_eq|]. cbn.
        unfold add_loyaltyPoints. by rewrite <- Hsync.
      + intros bid _. by rewrite <- Hsync. }
  assert (Htoggle : forall c' db' s,
            profileInSync c' db' ->
            let out := toggleFavorite s c' db' in
            profileInSync out.2 out.1
            /\ loyaltyPoints (userProfile out.2) = loyaltyPoints (userProfile c')
            /\ loggedInUser out.2 = loggedInUser c').
  { intros c' db' s (u' & Hu' & Hsync'). cbn.
    split; [|done]. unfold updateUserProfile. unfold_txn. cbn. rewrite Hu'. cbn.
    eexists. split; [apply lookup_insert_eq|done]. }
  split_and!.
  - intros now serverNow sessionId. apply Hstop.
  - intros s. apply Htoggle. by exists u.
  - intros now serverNow sessionId bid s p out Hok Hp. subst out.
    destruct (Hstop now serverNow sessionId) as [Hin Hpts].
    destruct (Hpts bid Hok) as [Hwho Hval].
    destruct (Htoggle _ _ s Hin) as ((u2 & Hu2 & Hsync2) & Hkeep & Hwho2).
    unfold pointsOf in *. rewrite Hu in Hp. injection Hp as <-.
    rewrite Hwho2, Hwho in Hu2. rewrite Hu2. cbn.
    by rewrite Hsync2, Hkeep, Hval.
Qed.

Lemma profileInSync_preserved_witness :
  pointsOf "alice"
    (toggleFavorite "0"
       (stopCharging (aliceClient 1 0) 3601000 3601000 "0" sharedStore).1.2
       (stopCharging (aliceClient 1 0) 3601000 3601000 "0" sharedStore).1.1).1
  = Some (0 + 10).
Proof.
  destruct (profileInSync_preserved (aliceClient 1 0) sharedStore) as (_ & _ & Hpts).
  - exists (mkUser "alice@example.org" "user" initialProfile).
    split; vm_compute; reflexivity.
  - apply (Hpts 3601000 3601000 "0" "0" "0" 0); vm_compute; reflexivity.
Defined.

Lemma occupied_insert (id sid : string) (s : Session) (m : gmap string Session) :
  m !! sid = None ->
  Z.of_nat (size (filter (fun kv => sessStationId (snd kv) = id) (<[sid := s]> m)))
  = Z.of_nat (size (filter (fun kv => sessStationId (snd kv) = id) m))
    + (if decide (sessStationId s = id) then 1 else 0).
Proof.
  intros Hfresh.
  destruct (decide (sessStationId s = id)) as [Hat|Hat].
  - rewrite map_filter_insert_True by done.
    rewrite map_size_insert_None by (by apply map_lookup_filter_None_2; left).
    lia.
  - rewrite map_filter_insert_not'; [lia|done|].
    intros y Hy. by rewrite Hfresh in Hy.
Qed.

Lemma occupied_delete (id sid : string) (s : Session) (m : gmap string Session) :
  m !! sid = Some s ->
  Z.of_nat (size (filter (fun kv => sessStationId (snd kv) = id) (delete sid m)))
  = Z.of_nat (size (filter (fun kv => sessStationId (snd kv) = id) m))
    - (if decide (sessStationId s = id) then 1 else 0).
Proof.
  intros Hs. rewrite map_filter_delete.
  destruct (decide (sessStationId s = id)) as [Hat|Hat].
  - assert (Hin : filter (fun kv => sessStationId (snd kv) = id) m !! sid = Some s)
      by (by apply map_lookup_filter_Some_2).
    rewrite map_size_delete_Some by (by eexists).
    assert (size (filter (fun kv => sessStationId (snd kv) = id) m) <> 0%nat).
    { intros Hz. apply map_size_empty_inv in Hz. by rewrite Hz in Hin. }
    lia.
  - rewrite delete_id; [lia|].
    apply map_lookup_filter_None_2. right. intros s' Hs'.
    rewrite Hs in Hs'. injection Hs' as <-. done.
Qed.

Lemma accounted_perform (a : action) (db : Store) :
  userAction a = true -> accounted db -> accounted (perform a db).
Proof.
  intros Ha Hdb.
  destruct a as [uid stationId t | c now serverNow sessionId | f | uid stationId];
    [| | done |]; cbn [perform].
  - destruct (stations db !! stationId) as [st|] eqn:Hst.
    + destruct (Z.leb_spec (available (slots st)) 0) as [Hle|Hlt].
      * by rewrite (startCharging_full _ _ _ _ _ Hst Hle).
      * rewrite (startCharging_free _ _ _ _ _ Hst Hlt). cbn [fst].
        intros id st'. unfold occupied. cbn [stations activeSessions].
        rewrite occupied_insert by apply newDocId_fresh. cbn [sessStationId].
        destruct (decide (stationId = id)) as [<-|Hne].
        -- rewrite lookup_insert_eq. intros [= <-]. cbn.
           pose proof (Hdb _ _ Hst) as Hacc. unfold occupied in Hacc. lia.
        -- rewrite lookup_insert_ne by done. intros Hst'.
           pose proof (Hdb _ _ Hst') as Hacc. unfold occupied in Hacc. lia.
    + by rewrite (startCharging_missing _ _ _ _ Hst).
  - destruct (stopCharging_cases c now serverNow sessionId db)
      as [[e Hfail]|(session & stationData & st & u & Hs & Hf & Hst & Hu)].
    + by rewrite Hfail.
    + rewrite (stopCharging_done _ _ _ _ _ _ _ _ _ Hs Hf Hst Hu). cbn [fst].
      intros id st'. unfold occupied. cbn [stations activeSessions].
      rewrite (occupied_delete _ _ _ _ Hs).
      destruct (decide (sessStationId session = id)) as [<-|Hne].
      * rewrite lookup_insert_eq. intros [= <-]. cbn.
        pose proof (Hdb _ _ Hst) as Hacc. unfold occupied in Hacc. lia.
      * rewrite lookup_insert_ne by done. intros Hst'.
        pose proof (Hdb _ _ Hst') as Hacc. unfold occupied in Hacc. lia.
  - destruct (stations db !! stationId) as [st|] eqn:Hst.
    + rewrite (joinQueue_known _ _ _ _ Hst). cbn [fst].
      intros id st'. unfold occupied, with_stations. cbn [stations activeSessions].
      destruct (decide (stationId = id)) as [<-|Hne].
      * rewrite lookup_insert_eq. intros [= <-]. cbn. apply (Hdb _ _ Hst).
      * rewrite lookup_insert_ne by done. apply Hdb.
    + by rewrite (joinQueue_unknown _ _ _ Hst).
Qed.

Lemma accounted_respects (a : action) (db : Store) :
  userAction a = true -> accounted db -> respects a db.
Proof.
  intros Ha Hdb.
  destruct a as [uid stationId t | c now serverNow sessionId | f | uid stationId];
    [done| |done|done].
  intros session st Hs Hst.
  pose proof (Hdb _ _ Hst) as Hacc. unfold occupied in Hacc.
  assert (Hin : filter (fun kv => sessStationId (snd kv) = sessStationId session)
                  (activeSessions db) !! sessionId = Some session)
    by (by apply map_lookup_filter_Some_2).
  assert (size (filter (fun kv => sessStationId (snd kv) = sessStationId session)
                  (activeSessions db)) <> 0%nat).
  { intros Hz. apply map_size_empty_inv in Hz. by rewrite Hz in Hin. }
  lia.
Qed.

Lemma stopTransaction_accounted c serverNow p db :
  activeSessions db !! planSessionId p = Some (planSession p) ->
  accounted db ->
  accounted (stopChargingCommit c serverNow p db).1.1.
Proof.
  intros Hs Hdb.
  destruct (stopChargingCommit_cases c serverNow p db)
    as [(e & -> & _)|(st & u & Hst & Hu)]; [done|].
  rewrite (stopChargingCommit_done _ _ _ _ _ _ Hst Hu). cbn [fst].
  intros id st'. unfold occupied. cbn [stations activeSessions].
  rewrite (occupied_delete _ _ _ _ Hs).
  destruct (decide (sessStationId (planSession p) = id)) as [<-|Hne].
  - rewrite lookup_insert_eq. intros [= <-]. cbn.
    pose proof (Hdb _ _ Hst) as Hacc. unfold occupied in Hacc. lia.
  - rewrite lookup_insert_ne by done. intros Hst'.
    pose proof (Hdb _ _ Hst') as Hacc. unfold occupied in Hacc. lia.
Qed.

Lemma stopTransaction_inv c serverNow p db :
  activeSessions db !! planSessionId p = Some (planSession p) ->
  accounted db -> store_inv db ->
  store_inv (stopChargingCommit c serverNow p db).1.1.
Proof.
  intros Hs Hacc Hdb.
  destruct (stopChargingCommit_cases c serverNow p db)
    as [(e & -> & _)|(st & u & Hst & Hu)]; [done|].
  rewrite (stopChargingCommit_done _ _ _ _ _ _ Hst Hu). cbn [fst].
  unfold store_inv. cbn [stations].
  apply store_inv_insert; [done|].
  pose proof (Hdb _ _ Hst) as [H0 H1].
  pose proof (accounted_respects (StopSession c 0 serverNow (planSessionId p)) db
                eq_refl Hacc _ _ Hs Hst).
  unfold slot_inv in *; cbn; lia.
Qed.

Lemma lastSlotStore_accounted : accounted lastSlotStore.
Proof.
  intros id st Hst. unfold occupied.
  change (activeSessions lastSlotStore) with (∅ : gmap string Session).
  rewrite map_filter_empty, map_size_empty.
  assert (Hdom : id = "0").
  { apply elem_of_dom_2 in Hst.
    change (stations lastSlotStore)
      with (<["0" := demoStation 1 1]> (∅ : gmap string Station)) in Hst.
    rewrite dom_insert_L, dom_empty_L in Hst.
    by apply elem_of_union in Hst as [->%elem_of_singleton|[]%elem_of_empty]. }
  subst id.
  assert (Hlook : stations lastSlotStore !! "0" = Some (demoStation 1 1))
    by (vm_compute; reflexivity).
  rewrite Hlook in Hst. injection Hst as <-. reflexivity.
Qed.

(** X13. Slot accounting without the admin.  Call a store accounted
    when, at every station, the free slots and the active sessions add up
    to [slots.total].  Take any run of the users' operations (book, stop,
    queue, successful or not) in which a [stopCharging] may have its
    transaction separated from its read by other events.  If every
    [stopCharging] transaction commits while the session it has read is
    still there, an accounted store with
    [0 <= slots.available <= slots.total] everywhere stays accounted and
    keeps these bounds.  The condition is needed: a [stopCharging]
    transaction that commits after its session is gone, at a station
    and for a user that exist, leaves a store that is not accounted. *)
Theorem accounted_interleaved (l : list event) (db : Store) :
  accounted db ->
  store_inv db ->
  (sessionsPresent l db ->
     accounted (happenAll l db) /\ store_inv (happenAll l db))
  /\ (forall c serverNow p,
        activeSessions db !! planSessionId p = None ->
        is_Some (stations db !! sessStationId (planSession p)) ->
        is_Some (users db !! loggedInUser c) ->
        ~ accounted (happen (StopTransaction c serverNow p) db)).
Proof.
  intros Hacc Hinv. split.
  - revert db Hacc Hinv. induction l as [|e l IH]; intros db Hacc Hinv Hl; [done|].
    destruct Hl as [He Hl]. cbn [happenAll foldl].
    apply IH; [| |done]; destruct e as [a|c serverNow p]; cbn [happen].
    + by apply accounted_perform.
    + by apply stopTransaction_accounted.
    + apply perform_inv; [done|]. by apply accounted_respects.
    + by apply stopTransaction_inv.
  - intros c serverNow p Hgone [st Hst] [u Hu] Hafter. cbn [happen] in Hafter.
    rewrite (stopChargingCommit_done _ _ _ _ _ _ Hst Hu) in Hafter.
    cbn [fst] in Hafter.
    pose proof (Hafter (sessStationId (planSession p))
                  (set_available (available (slots st) + 1) st)) as Hnow.
    unfold occupied in Hnow. cbn [stations activeSessions] in Hnow.
    rewrite lookup_insert_eq, delete_id in Hnow by done.
    specialize (Hnow eq_refl). cbn in Hnow.
    pose proof (Hacc _ _ Hst) as Hbefore. unfold occupied in Hbefore. lia.
Qed.

(** On the store with one free slot: alice books it, bob is turned away
    and queues, the transaction of alice's stop commits while her session
    is there, and a second stop of that session finds nothing. *)
Lemma accounted_interleaved_witness :
  let l := [ Uninterrupted (StartSession "alice" "0" 1000);
             Uninterrupted (StartSession "bob" "0" 2000);
             Uninterrupted (JoinQueue "bob" "0");
             StopTransaction (aliceClient 1 0) 3601000
               (mkStopPlan "0" (mkSession "alice" "0" 1000) 3600
                           (kwhOf 3600) (kwhOf 3600 * num 12)%Qc);
             Uninterrupted (StopSession (aliceClient 1 1) 3602000 3602000 "0") ] in
  (accounted (happenAll l lastSlotStore) /\ store_inv (happenAll l lastSlotStore))
  /\ stopChargingRead (aliceClient 1 0) 3601000 "0"
       (happenAll (take 2 l) lastSlotStore)
     = Ok (mkStopPlan "0" (mkSession "alice" "0" 1000) 3600
                      (kwhOf 3600) (kwhOf 3600 * num 12)%Qc)
  /\ readSlots "0" (happenAll (take 3 l) lastSlotStore) = Some (mkSlots 1 0)
  /\ readSlots "0" (happenAll l lastSlotStore) = Some (mkSlots 1 1).
Proof.
  intros l. split; [|split_and!; vm_compute; reflexivity].
  destruct (accounted_interleaved l lastSlotStore) as [Hkept _].
  - apply lastSlotStore_accounted.
  - by_computation.
  - apply Hkept. cbn. split_and!; first [done | vm_compute; reflexivity].
Defined.

Lemma perform_ledger (a : action) (db : Store) :
  (bookings (perform a db) = bookings db /\ users (perform a db) = users db)
  \/ (exists b who u,
        bookings (perform a db) = <[newDocId (bookings db) := b]> (bookings db)
        /\ users db !! who = Some u
        /\ users (perform a db)
           = <[who := set_loyaltyPoints (loyaltyPoints (profile u) + 10) u]>
               (users db)).
Proof.
  destruct a as [uid stationId t | c now serverNow sessionId | f | uid stationId];
    cbn [perform].
  - left. destruct (stations db !! stationId) as [st|] eqn:Hst.
    + destruct (Z.leb_spec (available (slots st)) 0) as [Hle|Hlt].
      * by rewrite (startCharging_full _ _ _ _ _ Hst Hle).
      * by rewrite (startCharging_free _ _ _ _ _ Hst Hlt).
    + by rewrite (startCharging_missing _ _ _ _ Hst).
  - destruct (stopCharging_cases c now serverNow sessionId db)
      as [[e Hfail]|(session & stationData & st & u & Hs & Hf & Hst & Hu)].
    + left. by rewrite Hfail.
    + right. rewrite (stopCharging_done _ _ _ _ _ _ _ _ _ Hs Hf Hst Hu). cbn.
      by eexists _, _, _.
  - left. unfold submitStationForm.
    destruct (_ <? _); [done|]. destruct (negb _); unfold_txn; [|done].
    by destruct (stations db !! formStationId f).
  - left. destruct (stations db !! stationId) as [st|] eqn:Hst.
    + by rewrite (joinQueue_known _ _ _ _ Hst).
    + by rewrite (joinQueue_unknown _ _ _ Hst).
Qed.

(** X14. The ledger only grows.  No booking, stop, queueing or form
    submission, in any order and number, removes or changes a booking
    that is in the store, and none lowers the loyalty points of any user
    or removes a user document. *)
Theorem ledger_append_only (l : list action) (db : Store) :
  bookings db ⊆ bookings (performAll l db)
  /\ (forall who p, pointsOf who db = Some p ->
        exists p', pointsOf who (performAll l db) = Some p' /\ p <= p').
Proof.
  revert db. induction l as [|a l IH]; intros db.
  { split; [done|]. intros who p Hp. exists p. split; [done|lia]. }
  cbn. destruct (IH (perform a db)) as [IHb IHp].
  destruct (perform_ledger a db) as [[Hb Hu]|(b & w & u & Hb & Hw & Hu)].
  - split; [by rewrite <- Hb|].
    intros who p Hp. apply IHp. unfold pointsOf in *. by rewrite Hu.
  - split.
    + trans (bookings (perform a db)); [|done].
      rewrite Hb. apply insert_subseteq, newDocId_fresh.
    + intros who p Hp.
      destruct (decide (w = who)) as [->|Hne].
      * destruct (IHp who (p + 10)) as (p' & Hp' & Hle).
        { unfold pointsOf in *. rewrite Hu, lookup_insert_eq. cbn.
          rewrite Hw in Hp. cbn in Hp. injection Hp as <-. done. }
        exists p'. split; [done|lia].
      * apply IHp. unfold pointsOf in *. by rewrite Hu, lookup_insert_ne.
Qed.

(** ** Registration *)

(** X15. A registration that does not go through writes nothing.  A
    password of fewer than 6 UTF-16 code units is turned down whatever the
    identity provider would have answered; and whenever [handleRegister]
    does not register (short password, or the provider refuses), the
    store is the one it started from. *)
Theorem handleRegister_failure
    (createUser : string -> list N -> result Credential)
    (emailIn : string) (password : list N) (roleIn : string) (db : Store) :
  ((length password < 6)%nat ->
     handleRegister createUser emailIn password roleIn db = (db, PasswordTooShort))
  /\ ((forall id, (handleRegister createUser emailIn password roleIn db).2
                  <> Registered id) ->
      (handleRegister createUser emailIn password roleIn db).1 = db)
  /\ (forall e, createUser emailIn password = Err e ->
        (6 <= length password)%nat ->
        handleRegister createUser emailIn password roleIn db
        = (db, RegistrationFailed e)).
Proof.
  split_and!.
  - intros Hshort. unfold handleRegister.
    by destruct (Nat.ltb_spec (length password) 6); [|lia].
  - apply handleRegister_unregistered.
  - intros e He Hlong. unfold handleRegister.
    destruct (Nat.ltb_spec (length password) 6); [lia|]. by rewrite He.
Qed.

Lemma handleRegister_failure_witness :
  handleRegister (demoAuth "carol") "carol@example.org" [233; 233; 233]%N "user"
                 aliceStore
  = (aliceStore, PasswordTooShort).
Proof.
  apply (handleRegister_failure (demoAuth "carol") "carol@example.org"
           [233; 233; 233]%N "user" aliceStore).
  cbn. lia.
Defined.

(** ** Loading the user's data *)

Lemma whereUserId_elem {V} (userIdOf : V -> string) (uid : string)
    (coll : gmap string V) (id : string) (v : V) :
  (id, v) ∈ whereUserId userIdOf uid coll <-> coll !! id = Some v /\ userIdOf v = uid.
Proof.
  unfold whereUserId. rewrite elem_of_map_to_list, map_lookup_filter_Some. done.
Qed.

Lemma whereUserId_NoDup {V} (userIdOf : V -> string) (uid : string)
    (coll : gmap string V) :
  NoDup (fst <$> whereUserId userIdOf uid coll).
Proof. apply NoDup_fst_map_to_list. Qed.

Lemma insertByCreatedAt_Permutation x l : insertByCreatedAt x l ≡ₚ x :: l.
Proof.
  induction l as [|y l IH]; cbn; [done|].
  destruct (_ <=? _); [done|]. rewrite IH. apply Permutation_swap.
Qed.

Lemma sortByCreatedAtDesc_Permutation l : sortByCreatedAtDesc l ≡ₚ l.
Proof.
  induction l as [|x l IH]; cbn; [done|].
  by rewrite insertByCreatedAt_Permutation, IH.
Qed.


Lemma insertByCreatedAt_sorted x l :
  StronglySorted newerOrEqual l -> StronglySorted newerOrEqual (insertByCreatedAt x l).
Proof.
  induction 1 as [|y l Hl IH Hy]; cbn.
  - repeat constructor.
  - destruct (Z.leb_spec (createdAt (snd y)) (createdAt (snd x))) as [Hle|Hgt].
    + constructor; [by constructor|].
      constructor; [done|].
      eapply Forall_impl; [exact Hy|]. unfold newerOrEqual. intros z Hz. lia.
    + constructor; [done|].
      rewrite insertByCreatedAt_Permutation. constructor; [|done].
      unfold newerOrEqual. lia.
Qed.

Lemma sortByCreatedAtDesc_sorted l : StronglySorted newerOrEqual (sortByCreatedAtDesc l).
Proof.
  induction l as [|x l IH]; cbn; [constructor|].
  by apply insertByCreatedAt_sorted.
Qed.

(** X16. The "Session History" after [fetchUserData].  The local array
    [bookings] holds exactly the bookings of the store whose [userId] is
    the signed-in user, each once, and no entry is older than any entry
    after it. *)
Theorem fetchUserData_bookings (uid : string) (db : Store) :
  let d := fetchUserData uid db in
  (forall id b, (id, b) ∈ localBookings d
                <-> bookings db !! id = Some b /\ bookUserId b = uid)
  /\ NoDup (fst <$> localBookings d)
  /\ StronglySorted newerOrEqual (localBookings d).
Proof.
  cbn. split_and!.
  - intros id b. rewrite sortByCreatedAtDesc_Permutation. apply whereUserId_elem.
  - rewrite sortByCreatedAtDesc_Permutation. apply whereUserId_NoDup.
  - apply sortByCreatedAtDesc_sorted.
Qed.

(** X17. The session that the "Stop Charging" button stops.  There is
    no button exactly when the signed-in user has no active session.
    The session behind the button is a session of the store that belongs
    to the signed-in user, so that, stopped by that user, it is the
    session's own user who gets the ten points and whose booking is
    written. *)
Theorem stopButton_own_session (c : Client) (db : Store) :
  let d := fetchUserData (loggedInUser c) db in
  (stopButtonId d = None
   <-> forall id s, activeSessions db !! id = Some s -> sessUserId s <> loggedInUser c)
  /\ (forall sid, stopButtonId d = Some sid ->
        exists session,
          activeSessions db !! sid = Some session
          /\ sessUserId session = loggedInUser c
          /\ (forall now serverNow bid p,
                (stopCharging c now serverNow sid db).2 = Ok bid ->
                pointsOf (sessUserId session) db = Some p ->
                pointsOf (sessUserId session)
                         (stopCharging c now serverNow sid db).1.1
                = Some (p + 10)
                /\ bookUserId <$> bookings (stopCharging c now serverNow sid db).1.1 !! bid
                   = Some (sessUserId session))).
Proof.
  cbn. unfold stopButtonId. cbn. split.
  - destruct (whereUserId sessUserId (loggedInUser c) (activeSessions db))
      as [|[id0 s0] rest] eqn:Hq; cbn.
    + split; [|done]. intros _ id s Hs Hown.
      assert (Hin : (id, s) ∈ whereUserId sessUserId (loggedInUser c) (activeSessions db))
        by (by apply whereUserId_elem).
      rewrite Hq in Hin. by apply elem_of_nil in Hin.
    + split; [done|]. intros Hnone.
      assert (Hin : (id0, s0) ∈ whereUserId sessUserId (loggedInUser c) (activeSessions db))
        by (rewrite Hq; apply elem_of_cons; by left).
      apply whereUserId_elem in Hin as [Hs Hown]. by destruct (Hnone _ _ Hs).
  - intros sid Hsid.
    destruct (whereUserId sessUserId (loggedInUser c) (activeSessions db))
      as [|[id0 s0] rest] eqn:Hq; cbn in Hsid; [done|].
    injection Hsid as ->.
    assert (Hin : (sid, s0) ∈ whereUserId sessUserId (loggedInUser c) (activeSessions db))
      by (rewrite Hq; apply elem_of_cons; by left).
    apply whereUserId_elem in Hin as [Hs Hown].
    exists s0. split_and!; [done|done|].
    intros now serverNow bid p Hok Hp.
    destruct (stopCharging_cases c now serverNow sid db)
      as [[e Hfail]|(session & stationData & st & u & Hs' & Hf & Hst & Hu)].
    { by rewrite Hfail in Hok. }
    rewrite Hs in Hs'. injection Hs' as <-.
    rewrite (stopCharging_done _ _ _ _ _ _ _ _ _ Hs Hf Hst Hu) in Hok |- *.
    cbn in Hok |- *. injection Hok as <-.
    unfold pointsOf in *. cbn. rewrite Hown in Hp |- *.
    rewrite Hu in Hp. cbn in Hp. injection Hp as <-.
    by rewrite !lookup_insert_eq.
Qed.

Example stopButton_example :
  stopButtonId (fetchUserData "alice" sharedStore) = Some "0"
  /\ stopButtonId (fetchUserData "bob" sharedStore) = None.
Proof. split; vm_compute; reflexivity. Qed.

(** ** Signing in *)

(** X18. Register, then sign in.  When [handleRegister] has registered
    a user and that user signs in, the role in force is the role selected
    at registration, the user name is the e-mail of the identity provider
    and [userProfile] is the initial profile; the user's pages are shown
    for the role "user", the admin's for "admin", and for any other role
    no container at all.  A user without document ends signed out, in
    front of the sign-in screen. *)
Theorem register_then_sign_in
    (createUser : string -> list N -> result Credential)
    (emailIn : string) (password : list N) (roleIn : string) (db : Store)
    (id : string) :
  (handleRegister createUser emailIn password roleIn db).2 = Registered id ->
  exists cred,
    createUser emailIn password = Ok cred
    /\ uid cred = id
    /\ onAuthStateChanged (Some cred)
         (handleRegister createUser emailIn password roleIn db).1
       = Some (mkSignedIn id roleIn (credEmail cred) initialProfile)
    /\ showAppView (onAuthStateChanged (Some cred)
                      (handleRegister createUser emailIn password roleIn db).1)
       = (if bool_decide (roleIn = "user") then UserApp
          else if bool_decide (roleIn = "admin") then AdminApp
          else NoContainer)
    /\ (forall other, users db !! uid other = None -> uid other <> id ->
          showAppView (onAuthStateChanged (Some other)
                         (handleRegister createUser emailIn password roleIn db).1)
          = AuthScreen).
Proof.
  unfold handleRegister.
  destruct (_ <? _)%nat; [done|].
  destruct (createUser emailIn password) as [cred|e]; [|done].
  cbn. intros [= <-]. exists cred.
  split_and!; try done.
  - by rewrite lookup_insert_eq.
  - by rewrite lookup_insert_eq.
  - intros other Hnone Hne. by rewrite lookup_insert_ne, Hnone.
Qed.

Lemma register_then_sign_in_witness :
  exists cred,
    demoAuth "alice" "alice@example.org" (asciiCodeUnits "secret1") = Ok cred
    /\ uid cred = "alice"
    /\ onAuthStateChanged (Some cred) aliceStore
       = Some (mkSignedIn "alice" "user" (credEmail cred) initialProfile)
    /\ showAppView (onAuthStateChanged (Some cred) aliceStore)
       = (if bool_decide ("user" = "user") then UserApp
          else if bool_decide ("user" = "admin") then AdminApp
          else NoContainer)
    /\ (forall other, users emptyStore !! uid other = None -> uid other <> "alice" ->
          showAppView (onAuthStateChanged (Some other) aliceStore) = AuthScreen).
Proof.
  apply (register_then_sign_in (demoAuth "alice") "alice@example.org" (asciiCodeUnits "secret1")
                               "user" emptyStore "alice").
  reflexivity.
Defined.

(** ** The charging estimate for the vehicles of the app *)



(** ** The meter of a running session *)

(** X20. The meter shows what will be booked.  When [stopCharging]
    succeeds at the time [now], the seconds, the energy and the cost that
    the session's timer shows at that time (with the same local array of
    stations) are the [duration], [kwhConsumed] and [cost] of the booking
    that is written. *)
Theorem meter_matches_booking (c : Client) (now serverNow : Z) (sessionId : string)
    (db : Store) (bid : string) (session : Session) :
  activeSessions db !! sessionId = Some session ->
  (stopCharging c now serverNow sessionId db).2 = Ok bid ->
  exists b,
    bookings (stopCharging c now serverNow sessionId db).1.1 !! bid = Some b
    /\ startSessionTimer (localStations c) session now
       = Some (duration b, kwhConsumed b, cost b).
Proof.
  intros Hs Hok.
  destruct (stopCharging_cases c now serverNow sessionId db)
    as [[e Hfail]|(session' & stationData & st & u & Hs' & Hf & Hst & Hu)].
  { by rewrite Hfail in Hok. }
  rewrite Hs in Hs'. injection Hs' as <-.
  rewrite (stopCharging_done _ _ _ _ _ _ _ _ _ Hs Hf Hst Hu) in Hok |- *.
  cbn in Hok |- *. injection Hok as <-.
  eexists. split; [apply lookup_insert_eq|].
  unfold startSessionTimer. by rewrite Hf.
Qed.

Lemma meter_matches_booking_witness :
  exists b,
    bookings (stopCharging (aliceClient 1 0) 3601000 3601000 "0" sharedStore).1.1
      !! "0" = Some b
    /\ startSessionTimer (localStations (aliceClient 1 0))
         (mkSession "alice" "0" 1000) 3601000
       = Some (duration b, kwhConsumed b, cost b).
Proof.
  apply (meter_matches_booking (aliceClient 1 0) 3601000 3601000 "0" sharedStore "0").
  - vm_compute. reflexivity.
  - vm_compute. reflexivity.
Defined.

(** ** Reviews *)

(** X21. Which reviews are stored and which can be drawn.  The review
    form stores a review exactly when the rating parses to a number other
    than 0, under an unused identifier and with that rating, whatever its
    size; the other reviews stay.  The row of five stars of a stored
    review can be drawn exactly when its rating is between 1 and 5, with
    as many filled stars as the rating says; for any other stored rating,
    drawing the review throws. *)
Theorem submitReview_spec (userId username stationId : string)
    (ratingIn : option Z) (reviewTextIn : string) (serverNow : Z)
    (reviews : gmap string Review) :
  let out := submitReview userId username stationId ratingIn reviewTextIn
                          serverNow reviews in
  (out.2 = true <-> exists r, ratingIn = Some r /\ r <> 0)
  /\ (out.2 = false -> out.1 = reviews)
  /\ (forall r, ratingIn = Some r -> r <> 0 ->
        reviews !! newDocId reviews = None
        /\ out.1 = <[newDocId reviews :=
                       mkReview userId username stationId r reviewTextIn serverNow]>
                     reviews
        /\ reviews ⊆ out.1
        /\ (is_Some (starRow r) <-> 1 <= r <= 5)
        /\ (forall row, starRow r = Some row ->
              length row = 5%nat
              /\ length (List.filter (fun filled => filled) row) = Z.to_nat r)).
Proof.
  intros out. subst out. unfold submitReview.
  destruct ratingIn as [r|]; cbn.
  - destruct (Z.eqb_spec r 0) as [->|Hnz]; cbn.
    + split_and!; [|done|by intros r [= <-]].
      split; [done|]. by intros (r & [= <-] & ?).
    + split_and!; [split; [by exists r|done]|done|].
      intros r' [= <-] _. split_and!.
      * apply newDocId_fresh.
      * done.
      * apply insert_subseteq, newDocId_fresh.
      * unfold starRow.
        destruct (Z.ltb_spec r 0), (Z.ltb_spec (5 - r) 0); cbn;
          (split; [intros [? ?]; try done; lia|intros ?; try lia; by eexists]).
      * intros row. unfold starRow.
        destruct (Z.ltb_spec r 0), (Z.ltb_spec (5 - r) 0); cbn; try done.
        intros [= <-]. rewrite length_app, !length_replicate. split; [lia|].
        rewrite List.filter_app, length_app.
        assert (Htrue : forall n, List.filter (fun filled : bool => filled)
                                    (replicate n true) = replicate n true).
        { induction n as [|n IH]; cbn; [done|]. by rewrite IH. }
        assert (Hfalse : forall n, List.filter (fun filled : bool => filled)
                                     (replicate n false) = []).
        { induction n as [|n IH]; cbn; [done|]. by rewrite IH. }
        rewrite Htrue, Hfalse, length_replicate. cbn. lia.
  - split_and!; [|done|done]. split; [done|]. by intros (r & ? & ?).
Qed.

(** ** Favourites over time *)

Lemma toggleFavoriteList_member (x s : string) (l : list string) :
  NoDup l ->
  bool_decide (s ∈ toggleFavoriteList x l)
  = if decide (x = s) then negb (bool_decide (s ∈ l)) else bool_decide (s ∈ l).
Proof.
  intros Hl. destruct (toggleFavoriteList_flip x l Hl) as (Hx & Hother & _).
  destruct (decide (x = s)) as [->|Hne].
  - destruct (decide (s ∈ l)) as [Hin|Hin].
    + rewrite (bool_decide_eq_true_2 _ Hin). cbn.
      apply bool_decide_eq_false_2. tauto.
    + rewrite (bool_decide_eq_false_2 _ Hin). cbn.
      apply bool_decide_eq_true_2. tauto.
  - apply bool_decide_ext. apply Hother. congruence.
Qed.

Lemma toggleFavorites_general (ss : list string) (c : Client) (db : Store) :
  NoDup (favorites (userProfile c)) ->
  NoDup (favorites (userProfile (toggleFavorites ss c db).2))
  /\ (forall s,
        bool_decide (s ∈ favorites (userProfile (toggleFavorites ss c db).2))
        = xorb (bool_decide (s ∈ favorites (userProfile c)))
               (Nat.odd (timesToggled s ss))).
Proof.
  revert c db. induction ss as [|x ss IH]; intros c db Hnd.
  - split; [done|]. intros s. cbn. by rewrite xorb_false_r.
  - unfold toggleFavorites in *. cbn [foldl fst snd].
    destruct (IH (toggleFavorite x c db).2 (toggleFavorite x c db).1) as [Hnd' Hmem].
    { cbn. by apply toggleFavoriteList_flip. }
    split; [done|]. intros s. rewrite Hmem. cbn [toggleFavorite snd userProfile
      favorites set_favorites].
    rewrite toggleFavoriteList_member by done.
    unfold timesToggled. cbn [List.filter].
    destruct (decide (x = s)) as [->|Hne].
    + rewrite (bool_decide_eq_true_2 (s = s)) by done. cbn [length].
      rewrite Nat.odd_succ, <- Nat.negb_odd.
      by destruct (bool_decide _), (Nat.odd _).
    + by rewrite (bool_decide_eq_false_2 (x = s)) by done.
Qed.

(** X22. Favourites by parity.  Starting from the empty list written at
    registration, after any sequence of [toggleFavorite] calls the
    favourites hold no station twice, and a station is a favourite
    exactly when it has been toggled an odd number of times. *)
Theorem toggleFavorites_parity (ss : list string) (c : Client) (db : Store) :
  favorites (userProfile c) = [] ->
  NoDup (favorites (userProfile (toggleFavorites ss c db).2))
  /\ (forall s, s ∈ favorites (userProfile (toggleFavorites ss c db).2)
                <-> Nat.odd (timesToggled s ss) = true).
Proof.
  intros Hempty.
  destruct (toggleFavorites_general ss c db) as [Hnd Hmem].
  { rewrite Hempty. constructor. }
  split; [done|]. intros s.
  rewrite <- (bool_decide_eq_true (s ∈ _)), Hmem, Hempty.
  rewrite bool_decide_eq_false_2 by apply not_elem_of_nil. done.
Qed.

Lemma toggleFavorites_parity_witness :
  NoDup (favorites (userProfile
           (toggleFavorites ["0"; "1"; "0"; "2"; "0"] (aliceClient 1 1) aliceStore).2))
  /\ (forall s, s ∈ favorites (userProfile
                     (toggleFavorites ["0"; "1"; "0"; "2"; "0"] (aliceClient 1 1)
                                      aliceStore).2)
                <-> Nat.odd (timesToggled s ["0"; "1"; "0"; "2"; "0"]) = true).
Proof.
  apply (toggleFavorites_parity ["0"; "1"; "0"; "2"; "0"] (aliceClient 1 1) aliceStore).
  reflexivity.
Defined.

(** ** Theme *)

Lemma toggleTheme_known (dark : bool) (c : Client) (db : Store) (u : User) :
  users db !! loggedInUser c = Some u ->
  toggleTheme dark c db
  = (with_users
       (insert (loggedInUser c)
          (set_profile (set_theme (if negb dark then "dark" else "light") (profile u)) u))
       db,
     mkClient (loggedInUser c) (localStations c)
       (set_theme (if negb dark then "dark" else "light") (userProfile c)),
     negb dark).
Proof. intros Hu. unfold toggleTheme. unfold_txn. cbn. by rewrite Hu. Qed.

(** X23. Switching the theme.  [toggleTheme] changes nothing but the
    theme: favourites, vehicle, loyalty points and the tour flag are as
    before, on screen and in the signed-in user's document, and every
    other document is untouched; a profile that was the stored one stays
    the stored one.  After the call the theme is "dark" exactly when the
    page has the class [dark], and two calls in a row bring back the
    class and, when the theme agreed with the class before, the theme. *)
Theorem toggleTheme_spec (dark : bool) (c : Client) (db : Store) (u : User) :
  users db !! loggedInUser c = Some u ->
  let out := toggleTheme dark c db in
  let again := toggleTheme out.2 out.1.2 out.1.1 in
  (theme (userProfile out.1.2) = "dark" <-> out.2 = true)
  /\ set_theme (theme (userProfile c)) (userProfile out.1.2) = userProfile c
  /\ users out.1.1
     = <[loggedInUser c :=
           set_profile (set_theme (theme (userProfile out.1.2)) (profile u)) u]>
         (users db)
  /\ stations out.1.1 = stations db
  /\ activeSessions out.1.1 = activeSessions db
  /\ bookings out.1.1 = bookings db
  /\ (profileInSync c db -> profileInSync out.1.2 out.1.1)
  /\ again.2 = dark
  /\ ((theme (userProfile c) = "dark" <-> dark = true) ->
      theme (userProfile c) = "dark" \/ theme (userProfile c) = "light" ->
      userProfile again.1.2 = userProfile c).
Proof.
  intros Hu out again. subst out again.
  rewrite (toggleTheme_known dark c db u Hu). cbn [fst snd].
  erewrite toggleTheme_known by apply lookup_insert_eq. cbn.
  split_and!; try done.
  - by destruct dark.
  - by destruct (userProfile c).
  - intros (u' & Hu' & Hsync). rewrite Hu in Hu'. injection Hu' as <-.
    eexists. split; [apply lookup_insert_eq|]. cbn. by rewrite Hsync.
  - apply negb_involutive.
  - intros Hagree Hknown. rewrite negb_involutive.
    destruct (userProfile c) as [favs veh th pts tour]. cbn in *.
    unfold set_theme. cbn. f_equal.
    destruct dark.
    + symmetry. by apply Hagree.
    + destruct Hknown as [Hd|Hl]; [|done]. apply Hagree in Hd. done.
Qed.

Lemma toggleTheme_spec_witness :
  theme (userProfile (toggleTheme false (aliceClient 1 1) aliceStore).1.2) = "dark"
  <-> (toggleTheme false (aliceClient 1 1) aliceStore).2 = true.
Proof.
  apply (toggleTheme_spec false (aliceClient 1 1) aliceStore
           (mkUser "alice@example.org" "user" initialProfile)).
  vm_compute. reflexivity.
Defined.

(** ** The effects of a stop *)

Lemma stopChargingRead_ok c now sessionId db0 p :
  stopChargingRead c now sessionId db0 = Ok p ->
  exists stationData,
    activeSessions db0 !! sessionId = Some (planSession p)
    /\ findStation (sessStationId (planSession p)) (localStations c)
       = Some stationData
    /\ planSessionId p = sessionId
    /\ planDuration p = (now - startTime (planSession p)) / 1000
    /\ planKwh p
       = (num ((now - startTime (planSession p)) / 1000) / num 3600 * num 25)%Qc
    /\ planCost p
       = (num ((now - startTime (planSession p)) / 1000) / num 3600 * num 25
          * effectivePrice stationData)%Qc.
Proof.
  unfold stopChargingRead.
  destruct (activeSessions db0 !! sessionId) as [session|]; [|done].
  cbn zeta.
  destruct (findStation _ _) as [stationData|] eqn:Hf; [|done].
  intros [= <-]. cbn. by exists stationData.
Qed.

(** X24. What a [stopCharging] does to the store.  Let the call have
    read its session, and let that session document still be in the store
    when the transaction commits.  The transaction commits exactly when
    the station's and the signed-in user's documents exist, and when it
    does not, store and page are as before.  When it commits: the session
    document is gone, one session fewer, every other session as before;
    the station document is the one before with [slots.available] one
    higher and every other field as it was, every other station as
    before; the signed-in user's document is the one before with
    [profile.loyaltyPoints] ten higher, every other user as before; one
    booking is added under an identifier that was unused, with the
    session's [userId] and [stationId], the server time,
    [duration = floor((now - startTime) / 1000)],
    [kwhConsumed = duration / 3600 * 25] and
    [cost = kwhConsumed * (currentPrice || pricePerKwh)] of the station
    as the page holds it, every other booking as before; and the page's
    own [userProfile.loyaltyPoints] is ten higher. *)
Theorem stopCharging_effects (c : Client) (now serverNow : Z)
    (sessionId : string) (db0 db : Store) (p : StopPlan) :
  stopChargingRead c now sessionId db0 = Ok p ->
  activeSessions db !! sessionId = Some (planSession p) ->
  let session := planSession p in
  let out := stopChargingCommit c serverNow p db in
  ((exists bid, out.2 = Ok bid) <->
     is_Some (stations db !! sessStationId session)
     /\ is_Some (users db !! loggedInUser c))
  /\ (forall e, out.2 = Err e -> out.1 = (db, c))
  /\ (forall bid, out.2 = Ok bid ->
        exists st u stationData,
          stations db !! sessStationId session = Some st
          /\ users db !! loggedInUser c = Some u
          /\ findStation (sessStationId session) (localStations c)
             = Some stationData
          /\ activeSessions out.1.1 !! sessionId = None
          /\ (forall other, other <> sessionId ->
                activeSessions out.1.1 !! other = activeSessions db !! other)
          /\ S (size (activeSessions out.1.1)) = size (activeSessions db)
          /\ stations out.1.1 !! sessStationId session
             = Some (mkStation (name st) (city st) (lat st) (lng st) (mobile st)
                       (mkSlots (total (slots st)) (available (slots st) + 1))
                       (pricePerKwh st) (status st) (images st) (amenities st)
                       (chargerTypes st) (queue st) (currentPrice st))
          /\ (forall other, other <> sessStationId session ->
                stations out.1.1 !! other = stations db !! other)
          /\ users out.1.1 !! loggedInUser c
             = Some (mkUser (email u) (role u)
                       (mkProfile (favorites (profile u)) (vehicle (profile u))
                          (theme (profile u)) (loyaltyPoints (profile u) + 10)
                          (hasCompletedTour (profile u))))
          /\ (forall other, other <> loggedInUser c ->
                users out.1.1 !! other = users db !! other)
          /\ bookings db !! bid = None
          /\ bookings out.1.1 !! bid
             = Some (let dur := (now - startTime session) / 1000 in
                     let kwh := (num dur / num 3600 * num 25)%Qc in
                     mkBooking (sessUserId session) (sessStationId session)
                       serverNow dur (kwh * effectivePrice stationData)%Qc kwh)
          /\ (forall other, other <> bid ->
                bookings out.1.1 !! other = bookings db !! other)
          /\ size (bookings out.1.1) = S (size (bookings db))
          /\ out.1.2
             = mkClient (loggedInUser c) (localStations c)
                 (mkProfile (favorites (userProfile c)) (vehicle (userProfile c))
                    (theme (userProfile c)) (loyaltyPoints (userProfile c) + 10)
                    (hasCompletedTour (userProfile c)))).
Proof.
  intros Hread Hs session out. subst session out.
  destruct (stopChargingRead_ok _ _ _ _ _ Hread)
    as (stationData & _ & Hf & Hid & Hdur & Hkwh & Hcost).
  destruct (stopChargingCommit_cases c serverNow p db)
    as [(e & Hfail & Hmissing)|(st & u & Hst & Hu)].
  - rewrite Hfail. cbn. split_and!; [|done|done].
    split; [intros [bid ?]; done|].
    intros [[st Hst] [u Hu]]. destruct Hmissing as [Hm|Hm]; congruence.
  - rewrite (stopChargingCommit_done _ _ _ _ _ _ Hst Hu). cbn [fst snd].
    split_and!; [|done|].
    + split; [intros _; by split; eexists|intros _; by eexists].
    + intros bid [= <-]. exists st, u, stationData.
      cbn [stations activeSessions bookings users]. rewrite Hid.
      split_and!; try done.
      * apply lookup_delete_eq.
      * intros other Hother. by apply lookup_delete_ne.
      * rewrite map_size_delete_Some by (by eexists).
        assert (size (activeSessions db) <> 0%nat).
        { intros Hz. apply map_size_empty_inv in Hz. by rewrite Hz in Hs. }
        lia.
      * by rewrite lookup_insert_eq.
      * intros other Hother. by rewrite lookup_insert_ne.
      * by rewrite lookup_insert_eq.
      * intros other Hother. by rewrite lookup_insert_ne.
      * apply newDocId_fresh.
      * rewrite lookup_insert_eq. cbn zeta. by rewrite Hdur, Hkwh, Hcost.
      * intros other Hother. by rewrite lookup_insert_ne.
      * apply map_size_insert_None, newDocId_fresh.
Qed.

(** Alice stops her session at the one-slot station an hour after its
    start: the slot is free again, she has ten points, and the booking
    records 3600 seconds. *)
Lemma stopCharging_effects_witness :
  let c := aliceClient 1 0 in
  let p := mkStopPlan "0" (mkSession "alice" "0" 1000) 3600
                      (kwhOf 3600) (kwhOf 3600 * num 12)%Qc in
  let out := stopChargingCommit c 3601300 p sharedStore in
  stopChargingRead c 3601000 "0" sharedStore = Ok p
  /\ out.2 = Ok "0"
  /\ readSlots "0" sharedStore = Some (mkSlots 1 0)
  /\ readSlots "0" out.1.1 = Some (mkSlots 1 1)
  /\ pointsOf "alice" sharedStore = Some 0
  /\ pointsOf "alice" out.1.1 = Some 10
  /\ loyaltyPoints (userProfile out.1.2) = 10
  /\ activeSessions out.1.1 !! "0" = None
  /\ S (size (activeSessions out.1.1)) = size (activeSessions sharedStore)
  /\ duration <$> bookings out.1.1 !! "0" = Some 3600
  /\ size (bookings out.1.1) = S (size (bookings sharedStore)).
Proof.
  intros c p out.
  assert (Hread : stopChargingRead c 3601000 "0" sharedStore = Ok p)
    by (vm_compute; reflexivity).
  assert (Hpresent : activeSessions sharedStore !! "0" = Some (planSession p))
    by (vm_compute; reflexivity).
  assert (Hok : out.2 = Ok "0") by (vm_compute; reflexivity).
  destruct (stopCharging_effects c 3601000 3601300 "0" sharedStore sharedStore p
              Hread Hpresent) as (_ & _ & Heffects).
  destruct (Heffects "0" Hok)
    as (st & u & stationData & Hst & Hu & Hf & Hgone & _ & Hsize & Hst' & _
        & Hu' & _ & Hfresh & Hb & _ & Hbsize & Hc).
  fold out in Hgone, Hsize, Hst', Hu', Hb, Hbsize, Hc.
  assert (st = demoStation 1 0) as ->
    by (vm_compute in Hst; by injection Hst).
  assert (u = mkUser "alice@example.org" "user" initialProfile) as ->
    by (vm_compute in Hu; by injection Hu).
  unfold readSlots, pointsOf.
  change (sessStationId (planSession p)) with "0" in Hst'.
  change (loggedInUser c) with "alice" in Hu'.
  rewrite Hst', Hu', Hb, Hc.
  split_and!; first [done | vm_compute; reflexivity].
Defined.
